(** * jx-git-operator: the Job launcher (pkg/launcher/job/job_launcher.go)

    A shallow embedding of [Launch], [IsJobActive], [startNewJob] and
    [trimLength], and the properties of the dispatch decision and of the
    job materialization that the specification states about them.

    The launcher talks to three collaborators: the Kubernetes batch/v1 Job
    client, the file system (through jx-helpers' [files] and [yamls] and
    Go's [filepath]) and a command runner.  The collaborators are not part
    of the package; they are modelled as oracles that the launcher calls,
    and every call is recorded in a trace so that "is invoked", "is never
    invoked" and "with which arguments" can be stated.  Logging is left
    out: it has no influence on the returned values or on the calls made. *)

From Stdlib Require Import ZArith Lia.
From stdpp Require Import base decidable option list strings gmap.

Local Open Scope string_scope.
Local Open Scope list_scope.

(** ** Go values *)

(** Go's [error] values.  [External] is an error produced by a collaborator;
    its flag is what [apierrors.IsNotFound] answers for it.  [Wrapf] and
    [Errorf] are the two constructors of github.com/pkg/errors that the
    launcher uses, with the formatted message. *)
Inductive error : Type :=
| External (notFound : bool) (msg : string)
| Wrapf (cause : error) (msg : string)
| Errorf (msg : string).

Module apierrors.

Definition IsNotFound (err : error) : bool :=
  match err with
  | External notFound _ => notFound
  | Wrapf _ _ | Errorf _ => false
  end.

End apierrors.

(** k8s.io/api/batch/v1: the fields of a Job that the launcher reads or
    writes.  [Labels] is a Go map, which may be nil ([None]); [Spec] stands
    for everything else the template carries. *)
Module v1.

Record JobStatus : Type := { Succeeded : Z; Failed : Z }.

Record Job : Type := {
  Name : string;
  Labels : option (gmap string string);
  Spec : string;
  Status : JobStatus
}.

Record JobList : Type := { Items : list Job }.

End v1.

(** Reading a Go map at a key: the zero value when the map is nil or the
    key is absent. *)
Definition index (m : option (gmap string string)) (key : string) : string :=
  match m with
  | Some labels => default "" (labels !! key)
  | None => ""
  end.

Module cmdrunner.

Record Command : Type := { Name : string; Args : list string }.

End cmdrunner.

Module repo.

Record Repository : Type := { Name : string; Namespace : string }.

End repo.

(** The fields of [launcher.LaunchOptions] that [Launch] uses. *)
Module launcher.

Record LaunchOptions : Type := {
  Repository : repo.Repository;
  GitSHA : string;
  Dir : string;
  NoResourceApply : bool
}.

End launcher.

(** ** Collaborators *)

(** The persisted Job records, each with the namespace it lives in. *)
Definition Store : Type := list (string * v1.Job).

(** The batch/v1 Job client.  [List] is an oracle over the current store,
    the namespace and the label selector; it answers with Go's pair of a
    list and an error (the typed client always hands back an allocated
    list).  [CreateErr] says whether a creation fails. *)
Module kubernetes.

Record Interface : Type := {
  List : Store -> string -> string -> v1.JobList * option error;
  CreateErr : Store -> string -> v1.Job -> option error
}.

End kubernetes.

(** Constants of the packages [constants] and [launcher] and the library
    functions the launcher calls, whose declarations are outside the
    package: they are parameters of the development. *)
Class Platform : Type := {
  DefaultSelectorKey : string;
  DefaultSelectorValue : string;
  RepositoryLabelKey : string;
  CommitShaLabelKey : string;
  ToValidValue : string -> string;
  Join : list string -> string;
  Abs : string -> string * option error;
  DirExists : string -> bool * option error;
  FileExists : string -> bool * option error;
  LoadFile : string -> v1.Job * option error
}.

Record client : Type := {
  kubeClient : kubernetes.Interface;
  ns : string;
  selector : string;
  runner : cmdrunner.Command -> string * option error
}.

(** ** Calls, runs and the launcher monad *)

Inductive Event : Type :=
| EvList (ns selector : string)
| EvCreate (ns : string) (job : v1.Job)
| EvDirExists (path : string)
| EvFileExists (path : string)
| EvLoadFile (path : string)
| EvAbs (path : string)
| EvRun (cmd : cmdrunner.Command).

(** How a Go function ends: it returns its value with a nil error, it
    returns a non-nil error, or it panics. *)
Inductive outcome (A : Type) : Type :=
| Return (a : A)
| Failure (err : error)
| Panic.
Arguments Return {A} a.
Arguments Failure {A} err.
Arguments Panic {A}.

(** One run of a launcher function from a given store: how it ends, the
    store it leaves behind and the calls it made, in order. *)
Record Run (A : Type) : Type := {
  result : outcome A;
  final : Store;
  calls : list Event
}.
Arguments result {A} r.
Arguments final {A} r.
Arguments calls {A} r.

Definition M (A : Type) : Type := Store -> Run A.

#[global] Instance M_ret : MRet M := fun A a s =>
  {| result := Return a; final := s; calls := [] |}.

(** The calls made so far, put in front of those of the rest of the run. *)
Definition prepend {A : Type} (made : list Event) (r : Run A) : Run A :=
  match r with
  | {| result := res; final := s; calls := more |} =>
      {| result := res; final := s; calls := made ++ more |}
  end.

#[global] Instance M_bind : MBind M := fun A B k m s =>
  match m s with
  | {| result := Return a; final := s'; calls := made |} => prepend made (k a s')
  | {| result := Failure err; final := s'; calls := made |} =>
      {| result := Failure err; final := s'; calls := made |}
  | {| result := Panic; final := s'; calls := made |} =>
      {| result := Panic; final := s'; calls := made |}
  end.

(** [return nil, err] *)
Definition fail {A : Type} (err : error) : M A := fun s =>
  {| result := Failure err; final := s; calls := [] |}.

(** A call to a collaborator that leaves the store alone. *)
Definition call {A : Type} (ev : Event) (answer : A) : M A := fun s =>
  {| result := Return answer; final := s; calls := [ev] |}.

(** [if err != nil { return nil, errors.Wrapf(err, msg) }] *)
Definition check (err : option error) (msg : string) : M unit :=
  match err with
  | Some e => fail (Wrapf e msg)
  | None => mret tt
  end.

(** A slice expression that may be out of range. *)
Definition orPanic {A : Type} (v : option A) : M A :=
  match v with
  | Some a => mret a
  | None => fun s => {| result := Panic; final := s; calls := [] |}
  end.

Section Launcher.

Context `{P : Platform}.

Definition dirExists (path : string) : M (bool * option error) :=
  call (EvDirExists path) (DirExists path).

Definition fileExists (path : string) : M (bool * option error) :=
  call (EvFileExists path) (FileExists path).

Definition loadFile (path : string) : M (v1.Job * option error) :=
  call (EvLoadFile path) (LoadFile path).

Definition absPath (path : string) : M (string * option error) :=
  call (EvAbs path) (Abs path).

Definition run (c : client) (cmd : cmdrunner.Command) : M (string * option error) :=
  call (EvRun cmd) (runner c cmd).

Definition jobsList (c : client) (ns selector : string) : M (v1.JobList * option error) :=
  fun s => call (EvList ns selector) (kubernetes.List (kubeClient c) s ns selector) s.

(** On success the substrate persists the submitted record and hands it
    back; the fields it assigns itself are outside [v1.Job] as modelled. *)
Definition jobsCreate (c : client) (ns : string) (job : v1.Job) : M (v1.Job * option error) :=
  fun s =>
    let err := kubernetes.CreateErr (kubeClient c) s ns job in
    {| result := Return (job, err);
       final := match err with Some _ => s | None => s ++ [(ns, job)] end;
       calls := [EvCreate ns job] |}.

(** ** The package *)

Definition IsJobActive (r : v1.Job) : bool :=
  (v1.Succeeded (v1.Status r) =? 0)%Z && (v1.Failed (v1.Status r) =? 0)%Z.

(** [text[0:length]] panics when [length] is negative; [length] cannot
    exceed [len(text)] on that branch. *)
Definition trimLength (text : string) (length : Z) : option string :=
  if (Z.of_nat (String.length text) <=? length)%Z then Some text
  else if (length <? 0)%Z then None
  else Some (String.substring 0 (Z.to_nat length) text).

Definition startNewJob (c : client) (opts : launcher.LaunchOptions)
    (ns safeName safeSha : string) : M (list v1.Job) :=
  let folder := Join [launcher.Dir opts; "versionStream"; "git-operator"] in
  '(exists_, err) ← dirExists folder;
  check err ("failed to check if folder exists " +:+ folder);;
  let folder :=
    if negb exists_ then Join [launcher.Dir opts; ".jx"; "git-operator"] else folder in
  let fileName := Join [folder; "job.yaml"] in
  '(exists_, err) ← fileExists fileName;
  check err ("failed to find file " +:+ fileName +:+ " in repository " +:+ safeName);;
  if negb exists_ then
    fail (Errorf ("repository " +:+ safeName +:+ " does not have a Job file: " +:+ fileName))
  else
  '(resource, err) ← loadFile fileName;
  check err ("failed to load Job file " +:+ fileName +:+ " in repository " +:+ safeName);;
  (if negb (launcher.NoResourceApply opts) then
     let resourcesDir := Join [folder; "resources"] in
     '(exists_, err) ← dirExists resourcesDir;
     check err ("failed to check if resources directory " +:+ resourcesDir
                +:+ " exists in repository " +:+ safeName);;
     if (exists_ : bool) then
       '(absDir, err) ← absPath resourcesDir;
       check err ("failed to get absolute resources dir " +:+ resourcesDir);;
       let cmd := {| cmdrunner.Name := "kubectl"; cmdrunner.Args := ["apply"; "-f"; absDir] |} in
       '(_output, err) ← run c cmd;
       check err ("failed to apply resources in dir " +:+ absDir)
     else mret tt
   else mret tt);;
  namePrefix ← orPanic (trimLength safeName 20);
  let maxShaLen := (30 - Z.of_nat (String.length namePrefix))%Z in
  shaPart ← orPanic (trimLength safeSha maxShaLen);
  let resourceName := namePrefix +:+ "-" +:+ shaPart in
  let labels := match v1.Labels resource with Some m => m | None => ∅ end in
  let labels := <[DefaultSelectorKey := DefaultSelectorValue]> labels in
  let labels := <[RepositoryLabelKey := safeName]> labels in
  let labels := <[CommitShaLabelKey := safeSha]> labels in
  let resource :=
    {| v1.Name := resourceName; v1.Labels := Some labels;
       v1.Spec := v1.Spec resource; v1.Status := v1.Status resource |} in
  '(r2, err) ← jobsCreate c ns resource;
  check err ("failed to create Job " +:+ resourceName +:+ " in namespace " +:+ ns);;
  mret [r2].

Definition Launch (c : client) (opts : launcher.LaunchOptions) : M (list v1.Job) :=
  let ns :=
    if decide (repo.Namespace (launcher.Repository opts) = "") then ns c
    else repo.Namespace (launcher.Repository opts) in
  let safeName := ToValidValue (repo.Name (launcher.Repository opts)) in
  let safeSha := ToValidValue (launcher.GitSHA opts) in
  let selector := selector c +:+ "," +:+ RepositoryLabelKey +:+ "=" +:+ safeName in
  '(list, err) ← jobsList c ns selector;
  let err :=
    match err with
    | Some e => if apierrors.IsNotFound e then None else Some e
    | None => None
    end in
  check err ("failed to find Jobs in namespace " +:+ ns +:+ " with selector " +:+ selector);;
  let '(jobsForSha, activeJobs) :=
    fold_left
      (fun '(jobsForSha, activeJobs) r =>
         let jobsForSha :=
           if decide (index (v1.Labels r) CommitShaLabelKey = safeSha)
           then jobsForSha ++ [r] else jobsForSha in
         let activeJobs :=
           if IsJobActive r then activeJobs ++ [r] else activeJobs in
         (jobsForSha, activeJobs))
      (v1.Items list) ([], []) in
  if (length jobsForSha =? 0)%nat then
    if (0 <? length activeJobs)%nat then mret []
    else startNewJob c opts ns safeName safeSha
  else mret [].

End Launcher.

(** ** Construction of the launcher *)

(** What [NewLauncher] falls back on when it is given no Kubernetes client
    or no runner: the kube-config factory and the current namespace of
    jx-kube-client, the client constructor of client-go and the default
    runner of jx-helpers.  They are outside the package and are parameters
    here; each answers with Go's pair of a value and an error. *)
Class Bootstrap : Type := {
  KubeConfig : Type;
  CreateKubeConfig : KubeConfig * option error;
  NewForConfig : KubeConfig -> kubernetes.Interface * option error;
  CurrentNamespace : string * option error;
  DefaultCommandRunner : cmdrunner.Command -> string * option error
}.

Section Construction.

Context `{B : Bootstrap}.

(** [kubeClient] and [runner] may be nil ([None]).  The namespace is looked
    up only inside the branch that creates the client. *)
Definition NewLauncher (kubeClient : option kubernetes.Interface) (ns selector : string)
    (runner : option (cmdrunner.Command -> string * option error)) : outcome client :=
  let finish (kubeClient : kubernetes.Interface) (ns : string) : outcome client :=
    let runner := match runner with Some r => r | None => DefaultCommandRunner end in
    Return {| kubeClient := kubeClient; ns := ns; selector := selector; runner := runner |} in
  match kubeClient with
  | Some kubeClient => finish kubeClient ns
  | None =>
      let '(cfg, err) := CreateKubeConfig in
      match err with
      | Some e => Failure (Wrapf e "failed to create kube config")
      | None =>
          let '(kubeClient, err) := NewForConfig cfg in
          match err with
          | Some e => Failure (Wrapf e "failed to create the kube client")
          | None =>
              if decide (ns = "") then
                let '(ns, err) := CurrentNamespace in
                match err with
                | Some e => Failure (Wrapf e "failed to find the current namespace")
                | None => finish kubeClient ns
                end
              else finish kubeClient ns
          end
      end
  end.

End Construction.

(** ** A small concrete platform, for examples

    A file system given by the directories that exist and the Job files
    with their parsed content; names and paths are already valid and
    absolute, so [ToValidValue] and [Abs] leave them alone, and [Join]
    puts a slash between the elements. *)
Module demo.

Definition emptyJob : v1.Job :=
  {| v1.Name := ""; v1.Labels := None; v1.Spec := "";
     v1.Status := {| v1.Succeeded := 0; v1.Failed := 0 |} |}.

Definition lookupFile (files : list (string * v1.Job)) (path : string) : option v1.Job :=
  snd <$> List.find (fun entry => bool_decide (fst entry = path)) files.

Definition platform (dirs : list string) (files : list (string * v1.Job)) : Platform :=
  {| DefaultSelectorKey := "app.kubernetes.io/managed-by";
     DefaultSelectorValue := "jx-git-operator";
     RepositoryLabelKey := "git-operator.jenkins.io/repository";
     CommitShaLabelKey := "git-operator.jenkins.io/commit-sha";
     ToValidValue := fun name => name;
     Join := String.concat "/";
     Abs := fun path => (path, None);
     DirExists := fun path => (bool_decide (path ∈ dirs), None);
     FileExists := fun path => (bool_decide (is_Some (lookupFile files path)), None);
     LoadFile := fun path =>
       match lookupFile files path with
       | Some job => (job, None)
       | None => (emptyJob, Some (External false "no such file"))
       end |}.

(** A Job client whose list query answers with the persisted records of the
    namespace and whose creations succeed. *)
Definition kube : kubernetes.Interface :=
  {| kubernetes.List := fun s ns _ =>
       ({| v1.Items := snd <$> List.filter (fun entry => bool_decide (fst entry = ns)) s |}, None);
     kubernetes.CreateErr := fun _ _ _ => None |}.

Definition launcherClient (okRunner : bool) : client :=
  {| kubeClient := kube; ns := "jx"; selector := "app.kubernetes.io/managed-by=jx-git-operator";
     runner := fun _ => if okRunner then ("", None) else ("", Some (External false "exit status 1")) |}.

Definition template : v1.Job :=
  {| v1.Name := ""; v1.Labels := Some {[ "team" := "platform" ]}; v1.Spec := "boot";
     v1.Status := {| v1.Succeeded := 0; v1.Failed := 0 |} |}.

Definition options (namespace sha : string) (noApply : bool) : launcher.LaunchOptions :=
  {| launcher.Repository :=
       {| repo.Name := "a-very-long-repository-name-example"; repo.Namespace := namespace |};
     launcher.GitSHA := sha; launcher.Dir := "/work"; launcher.NoResourceApply := noApply |}.

Definition record (sha : string) (succeeded failed : Z) : v1.Job :=
  {| v1.Name := "job-" +:+ sha;
     v1.Labels := Some {[ "git-operator.jenkins.io/commit-sha" := sha ]};
     v1.Spec := "boot";
     v1.Status := {| v1.Succeeded := succeeded; v1.Failed := failed |} |}.

(** A checkout with a Job file in both places and a resources directory
    next to the versionStream one, and a checkout without any Job file. *)
Definition checkout : Platform :=
  platform
    ["/work/versionStream/git-operator"; "/work/versionStream/git-operator/resources"]
    [("/work/versionStream/git-operator/job.yaml", template);
     ("/work/.jx/git-operator/job.yaml", emptyJob)].

Definition bare : Platform := platform [] [].

Definition safeName : string := "a-very-long-repository-name-example".

Definition sha : string := "0123456789abcdef".

(** The record made from [template] for [safeName] and [sha]. *)
Definition submitted : v1.Job :=
  {| v1.Name := "a-very-long-reposito-0123456789";
     v1.Labels :=
       Some (<[ "git-operator.jenkins.io/commit-sha" := sha ]>
               (<[ "git-operator.jenkins.io/repository" := safeName ]>
                  (<[ "app.kubernetes.io/managed-by" := "jx-git-operator" ]>
                     {[ "team" := "platform" ]})));
     v1.Spec := "boot";
     v1.Status := {| v1.Succeeded := 0; v1.Failed := 0 |} |}.

Definition applyResources : cmdrunner.Command :=
  {| cmdrunner.Name := "kubectl";
     cmdrunner.Args := ["apply"; "-f"; "/work/versionStream/git-operator/resources"] |}.

Definition listQuery (namespace : string) : Event :=
  EvList namespace
    "app.kubernetes.io/managed-by=jx-git-operator,git-operator.jenkins.io/repository=a-very-long-repository-name-example".

(** A process inside the cluster, in namespace "operators": the config and
    the client can be built, with [kube] as the client. *)
Definition inCluster : Bootstrap :=
  {| KubeConfig := unit;
     CreateKubeConfig := (tt, None);
     NewForConfig := fun _ => (kube, None);
     CurrentNamespace := ("operators", None);
     DefaultCommandRunner := fun _ => ("", None) |}.

(** A process without access to a cluster. *)
Definition noCluster : Bootstrap :=
  {| KubeConfig := unit;
     CreateKubeConfig := (tt, Some (External false "no kubeconfig"));
     NewForConfig := fun _ => (kube, None);
     CurrentNamespace := ("", Some (External false "no namespace file"));
     DefaultCommandRunner := fun _ => ("", None) |}.

(** A short repository name and a short commit id. *)
Definition shortOptions : launcher.LaunchOptions :=
  {| launcher.Repository := {| repo.Name := "boot"; repo.Namespace := "" |};
     launcher.GitSHA := "abc123"; launcher.Dir := "/work"; launcher.NoResourceApply := true |}.

(** The record made from [template] for [shortOptions]. *)
Definition shortSubmitted : v1.Job :=
  {| v1.Name := "boot-abc123";
     v1.Labels :=
       Some (<[ "git-operator.jenkins.io/commit-sha" := "abc123" ]>
               (<[ "git-operator.jenkins.io/repository" := "boot" ]>
                  (<[ "app.kubernetes.io/managed-by" := "jx-git-operator" ]>
                     {[ "team" := "platform" ]})));
     v1.Spec := "boot";
     v1.Status := {| v1.Succeeded := 0; v1.Failed := 0 |} |}.

(** A checkout with its Job file in .jx/git-operator and nothing else. *)
Definition plain : Platform :=
  platform [] [("/work/.jx/git-operator/job.yaml", template)].

(** A checkout whose Job file is there but is not a Job. *)
Definition broken : Platform :=
  {| DefaultSelectorKey := "app.kubernetes.io/managed-by";
     DefaultSelectorValue := "jx-git-operator";
     RepositoryLabelKey := "git-operator.jenkins.io/repository";
     CommitShaLabelKey := "git-operator.jenkins.io/commit-sha";
     ToValidValue := fun name => name;
     Join := String.concat "/";
     Abs := fun path => (path, None);
     DirExists := fun _ => (false, None);
     FileExists := fun _ => (true, None);
     LoadFile := fun _ => (emptyJob, Some (External false "did not find expected key")) |}.

(** A listed record that carries no label at all. *)
Definition unlabelled (succeeded failed : Z) : v1.Job :=
  {| v1.Name := "by-hand"; v1.Labels := None; v1.Spec := "boot";
     v1.Status := {| v1.Succeeded := succeeded; v1.Failed := failed |} |}.



End demo.

(** ** Vocabulary of the statements *)

Section Vocabulary.

Context `{P : Platform}.

(** The values [Launch] computes before it queries the store. *)
Definition namespaceOf (c : client) (opts : launcher.LaunchOptions) : string :=
  if decide (repo.Namespace (launcher.Repository opts) = "") then ns c
  else repo.Namespace (launcher.Repository opts).

Definition safeNameOf (opts : launcher.LaunchOptions) : string :=
  ToValidValue (repo.Name (launcher.Repository opts)).

Definition safeShaOf (opts : launcher.LaunchOptions) : string :=
  ToValidValue (launcher.GitSHA opts).

Definition selectorOf (c : client) (opts : launcher.LaunchOptions) : string :=
  selector c +:+ "," +:+ RepositoryLabelKey +:+ "=" +:+ safeNameOf opts.

(** What the list query of a cycle started in store [s] answers. *)
Definition listed (c : client) (opts : launcher.LaunchOptions) (s : Store)
    : v1.JobList * option error :=
  kubernetes.List (kubeClient c) s (namespaceOf c opts) (selectorOf c opts).

(** A record is labelled with a commit. *)
Definition forCommit (sha : string) (r : v1.Job) : Prop :=
  index (v1.Labels r) CommitShaLabelKey = sha.

#[global] Instance forCommit_dec (sha : string) (r : v1.Job) : Decision (forCommit sha r) :=
  decide (index (v1.Labels r) CommitShaLabelKey = sha).

(** The two places a Job file may live in. *)
Definition versionStreamFolder (opts : launcher.LaunchOptions) : string :=
  Join [launcher.Dir opts; "versionStream"; "git-operator"].

Definition originalFolder (opts : launcher.LaunchOptions) : string :=
  Join [launcher.Dir opts; ".jx"; "git-operator"].

Definition jobFile (folder : string) : string := Join [folder; "job.yaml"].

(** The labels of a template, a nil map read as the empty one. *)
Definition labelsOf (template : v1.Job) : gmap string string :=
  default ∅ (v1.Labels template).

End Vocabulary.

(** The error a collaborator answers a call with, for a run started in
    store [s]. *)
Definition errorOf `{P : Platform} (c : client) (s : Store) (ev : Event) : option error :=
  match ev with
  | EvList n sel => snd (kubernetes.List (kubeClient c) s n sel)
  | EvCreate n job => kubernetes.CreateErr (kubeClient c) s n job
  | EvDirExists path => snd (DirExists path)
  | EvFileExists path => snd (FileExists path)
  | EvLoadFile path => snd (LoadFile path)
  | EvAbs path => snd (Abs path)
  | EvRun cmd => snd (runner c cmd)
  end.

(** The invariant on the persisted records as the specification words it,
    for the cycle started in store [s]: if the cycle ends without an error,
    the records already held one of the commit and nothing was created, or
    exactly one record of the commit was added. *)
Definition held_or_gains_one `{P : Platform} (c : client) (opts : launcher.LaunchOptions)
    (s : Store) : Prop :=
  let r := Launch c opts s in
  forall created, result r = Return created ->
    (((exists entry, entry ∈ s /\ forCommit (safeShaOf opts) (snd entry))
      \/ (exists old, old ∈ v1.Items (fst (listed c opts s))
                      /\ forCommit (safeShaOf opts) old))
     /\ final r = s)
    \/ (exists job, forCommit (safeShaOf opts) job
                    /\ final r = s ++ [(namespaceOf c opts, job)]).

(** The first [n] characters of a text, all of it when it is shorter. *)
Definition leading (n : nat) (text : string) : string := String.substring 0 n text.

(** The cycle ended after its list query, without creating anything. *)
Definition skipped (ev : Event) (s : Store) : Run (list v1.Job) :=
  {| result := Return []; final := s; calls := [ev] |}.

(** The records submitted for creation, the list queries and the commands
    run among the calls of a run. *)
Definition submissions (evs : list Event) : list (string * v1.Job) :=
  omap (fun ev => match ev with EvCreate n job => Some (n, job) | _ => None end) evs.

Definition queries (evs : list Event) : list (string * string) :=
  omap (fun ev => match ev with EvList n sel => Some (n, sel) | _ => None end) evs.

Definition commands (evs : list Event) : list cmdrunner.Command :=
  omap (fun ev => match ev with EvRun cmd => Some cmd | _ => None end) evs.

(** A run that made one more call first. *)
Definition after {A : Type} (ev : Event) (r : Run A) : Run A :=
  {| result := result r; final := final r; calls := ev :: calls r |}.


(** ** Texts and truncation *)

Lemma length_append (a b : string) :
  String.length (a +:+ b) = (String.length a + String.length b)%nat.
Proof. induction a as [|ch a IH]; simpl; [reflexivity | now rewrite IH]. Qed.

Lemma leading_length (n : nat) (text : string) :
  String.length (leading n text) = Nat.min n (String.length text).
Proof.
  unfold leading. revert n.
  induction text as [|ch text IH]; intros [|n]; simpl; try reflexivity.
  now rewrite IH.
Qed.

Lemma leading_all (n : nat) (text : string) :
  (String.length text <= n)%nat -> leading n text = text.
Proof.
  unfold leading. revert n.
  induction text as [|ch text IH]; intros [|n] Hlen; simpl in *; try reflexivity; try lia.
  f_equal. apply IH. lia.
Qed.

Lemma leading_prefix (n : nat) (text : string) :
  exists rest, text = leading n text +:+ rest.
Proof.
  unfold leading. revert n.
  induction text as [|ch text IH]; intros [|n]; simpl.
  - now exists "".
  - now exists "".
  - now exists (String ch text).
  - destruct (IH n) as [rest Hrest]. exists rest.
    change (String ch text = String ch (String.substring 0 n text +:+ rest)).
    now rewrite <- Hrest.
Qed.

(** Membership in an explicit list of calls: deciding a goal, and taking a
    hypothesis apart. *)
Ltac called := repeat first [apply list_elem_of_here | apply list_elem_of_further].

Ltac in_calls H :=
  repeat (apply elem_of_cons in H; destruct H as [H|H]; [try discriminate H|]);
  try (apply elem_of_nil in H; destruct H).

Section Properties.

Context `{P : Platform}.

Lemma trimLength_leading (text : string) (n : Z) :
  (0 <= n)%Z -> trimLength text n = Some (leading (Z.to_nat n) text).
Proof.
  intros Hn. unfold trimLength.
  destruct (Z.leb_spec (Z.of_nat (String.length text)) n) as [Hle|Hgt].
  - rewrite leading_all by lia. reflexivity.
  - destruct (Z.ltb_spec n 0); [lia | reflexivity].
Qed.

(** The loop of [Launch] collects the records of the commit and the active
    records, each in the order of the list. *)
Lemma Launch_loop (sha : string) (items jobsForSha activeJobs : list v1.Job) :
  fold_left
    (fun '(jobsForSha, activeJobs) r =>
       let jobsForSha :=
         if decide (index (v1.Labels r) CommitShaLabelKey = sha)
         then jobsForSha ++ [r] else jobsForSha in
       let activeJobs :=
         if IsJobActive r then activeJobs ++ [r] else activeJobs in
       (jobsForSha, activeJobs))
    items (jobsForSha, activeJobs)
  = (jobsForSha ++ filter (forCommit sha) items,
     activeJobs ++ filter (fun r => IsJobActive r = true) items).
Proof.
  revert jobsForSha activeJobs.
  induction items as [|r items IH]; intros jobsForSha activeJobs; simpl.
  - now rewrite !app_nil_r.
  - rewrite IH. rewrite !filter_cons. unfold forCommit.
    destruct (decide (index (v1.Labels r) CommitShaLabelKey = sha));
      destruct (IsJobActive r); simpl;
      repeat case_decide; try congruence;
      now rewrite <- ?app_assoc.
Qed.

Opaque startNewJob.

Lemma Launch_list_failure (c : client) (opts : launcher.LaunchOptions) (s : Store)
    (l : v1.JobList) (e : error) :
  listed c opts s = (l, Some e) ->
  apierrors.IsNotFound e = false ->
  Launch c opts s =
    {| result :=
         Failure (Wrapf e ("failed to find Jobs in namespace " +:+ namespaceOf c opts
                           +:+ " with selector " +:+ selectorOf c opts));
       final := s;
       calls := [EvList (namespaceOf c opts) (selectorOf c opts)] |}.
Proof.
  intros Hlist Hnf. unfold listed, namespaceOf, selectorOf, safeNameOf in *.
  unfold Launch, jobsList, call, mbind, M_bind. simpl.
  rewrite Hlist. simpl. rewrite Hnf. reflexivity.
Qed.

Lemma Launch_decision (c : client) (opts : launcher.LaunchOptions) (s : Store)
    (l : v1.JobList) (err : option error) :
  listed c opts s = (l, err) ->
  (forall e, err = Some e -> apierrors.IsNotFound e = true) ->
  Launch c opts s =
    let ev := EvList (namespaceOf c opts) (selectorOf c opts) in
    match filter (forCommit (safeShaOf opts)) (v1.Items l) with
    | [] =>
        match filter (fun r => IsJobActive r = true) (v1.Items l) with
        | [] => after ev (startNewJob c opts (namespaceOf c opts) (safeNameOf opts)
                            (safeShaOf opts) s)
        | _ :: _ => skipped ev s
        end
    | _ :: _ => skipped ev s
    end.
Proof.
  intros Hlist Hnf. unfold listed, namespaceOf, selectorOf, safeNameOf, safeShaOf in *.
  unfold Launch, jobsList, call, mbind, M_bind. simpl.
  rewrite Hlist. simpl.
  assert (Herr : match err with
                 | Some e => if apierrors.IsNotFound e then None else Some e
                 | None => None
                 end = None).
  { destruct err as [e|]; [|reflexivity]. now rewrite (Hnf e eq_refl). }
  rewrite Herr. simpl. rewrite Launch_loop. simpl.
  destruct (filter _ (v1.Items l)) as [|r1 rs1]; simpl; [|reflexivity].
  destruct (filter _ (v1.Items l)) as [|r2 rs2]; simpl; [|reflexivity].
  unfold after. destruct (startNewJob _ _ _ _ _ s); reflexivity.
Qed.

Transparent startNewJob.

(** Both truncations of [startNewJob] are within bounds: the name prefix
    has at most 20 characters, which leaves a bound of at least 10 for the
    commit id. *)
Lemma startNewJob_trims (safeName safeSha : string) :
  trimLength safeName 20 = Some (leading 20 safeName) /\
  trimLength safeSha (30 - Z.of_nat (String.length (leading 20 safeName)))
  = Some (leading (30 - String.length (leading 20 safeName)) safeSha).
Proof.
  split.
  - now rewrite trimLength_leading by lia.
  - pose proof (leading_length 20 safeName) as Hlen.
    rewrite trimLength_leading by lia.
    do 2 f_equal. lia.
Qed.

(** Case analysis on the answers of the collaborators along one run, in
    the order in which [startNewJob] calls them. *)
Ltac answer_dir :=
  match goal with
  | |- context [DirExists ?p] => destruct (DirExists p) as [[|] [?|]] eqn:?
  end.

Ltac answer_file :=
  match goal with
  | |- context [FileExists ?p] => destruct (FileExists p) as [[|] [?|]] eqn:?
  end.

Ltac answer_load :=
  match goal with
  | |- context [LoadFile ?p] => destruct (LoadFile p) as [? [?|]] eqn:?
  end.

Ltac answer_flag :=
  match goal with
  | |- context [launcher.NoResourceApply ?o] =>
      destruct (launcher.NoResourceApply o) eqn:?
  end.

Ltac answer_abs :=
  match goal with
  | |- context [Abs ?p] => destruct (Abs p) as [? [?|]] eqn:?
  end.

Ltac answer_runner :=
  match goal with
  | |- context [runner ?c ?cmd] => destruct (runner c cmd) as [? [?|]] eqn:?
  end.

Ltac answer_create :=
  match goal with
  | |- context [kubernetes.CreateErr ?k ?s ?n ?j] =>
      destruct (kubernetes.CreateErr k s n j) as [?|] eqn:?
  end.

Ltac unfold_run :=
  unfold startNewJob, dirExists, fileExists, loadFile, absPath, run, jobsCreate,
    call, check, fail, orPanic, mbind, M_bind, mret, M_ret.

Ltac reduce_run := cbn [result final calls app negb prepend].

Ltac paths safeName safeSha :=
  let Hname := fresh "Hname" in
  let Hsha := fresh "Hsha" in
  destruct (startNewJob_trims safeName safeSha) as [Hname Hsha];
  unfold_run; rewrite Hname, Hsha; reduce_run;
  try (answer_dir; reduce_run);
  try (answer_file; reduce_run);
  try (answer_load; reduce_run);
  try (answer_flag; reduce_run);
  try (answer_dir; reduce_run);
  try (answer_abs; reduce_run);
  try (answer_runner; reduce_run);
  try (answer_create; reduce_run).

Lemma startNewJob_no_panic (c : client) (opts : launcher.LaunchOptions)
    (ns safeName safeSha : string) (s : Store) :
  result (startNewJob c opts ns safeName safeSha s) <> Panic.
Proof. paths safeName safeSha; discriminate. Qed.

(** The record a run submits: made in the namespace of the cycle, from the
    template of the resolved Job file, with the name and the three labels
    of the commit. *)
Lemma startNewJob_submits (c : client) (opts : launcher.LaunchOptions)
    (ns safeName safeSha : string) (s : Store) (n : string) (job : v1.Job) :
  EvCreate n job ∈ calls (startNewJob c opts ns safeName safeSha s) ->
  n = ns /\
  exists (found : bool) (template : v1.Job),
    let folder := if found then versionStreamFolder opts else originalFolder opts in
    DirExists (versionStreamFolder opts) = (found, None) /\
    FileExists (jobFile folder) = (true, None) /\
    LoadFile (jobFile folder) = (template, None) /\
    job =
      {| v1.Name :=
           leading 20 safeName +:+ "-"
           +:+ leading (30 - String.length (leading 20 safeName)) safeSha;
         v1.Labels :=
           Some (<[CommitShaLabelKey := safeSha]>
                   (<[RepositoryLabelKey := safeName]>
                      (<[DefaultSelectorKey := DefaultSelectorValue]> (labelsOf template))));
         v1.Spec := v1.Spec template;
         v1.Status := v1.Status template |}.
Proof.
  unfold versionStreamFolder, originalFolder, jobFile.
  paths safeName safeSha; intros H; in_calls H.
  all: injection H as -> ->; split; [reflexivity|].
  all: eexists _, _; cbn zeta; repeat split; eauto.
Qed.

Ltac reduce_calls := cbn [submissions queries commands omap list_omap].

(** How a run of [startNewJob] ends: with an error and the store as it
    was, or with exactly one record created.  It submits at most one
    record and never queries the store. *)
Lemma startNewJob_ends (c : client) (opts : launcher.LaunchOptions)
    (ns safeName safeSha : string) (s : Store) :
  let r := startNewJob c opts ns safeName safeSha s in
  queries (calls r) = [] /\
  ((exists err, result r = Failure err /\ final r = s /\
                (submissions (calls r) = [] \/
                 exists job, submissions (calls r) = [(ns, job)]))
   \/ (exists job, result r = Return [job] /\ final r = s ++ [(ns, job)] /\
                   submissions (calls r) = [(ns, job)])).
Proof.
  paths safeName safeSha; reduce_calls; (split; [reflexivity|]).
  all: first
    [ solve [left; eexists; split; [reflexivity|]; split; [reflexivity|];
             first [left; reflexivity | right; eexists; reflexivity]]
    | right; eexists; split; [reflexivity|]; split; reflexivity ].
Qed.

Lemma elem_of_submissions (evs : list Event) (n : string) (job : v1.Job) :
  (n, job) ∈ submissions evs <-> EvCreate n job ∈ evs.
Proof.
  unfold submissions. rewrite list_elem_of_omap. split.
  - intros [[] [Hin Heq]]; try discriminate. now injection Heq as -> ->.
  - intros Hin. now exists (EvCreate n job).
Qed.

Lemma elem_of_commands (evs : list Event) (cmd : cmdrunner.Command) :
  cmd ∈ commands evs <-> EvRun cmd ∈ evs.
Proof.
  unfold commands. rewrite list_elem_of_omap. split.
  - intros [[] [Hin Heq]]; try discriminate. now injection Heq as ->.
  - intros Hin. now exists (EvRun cmd).
Qed.

Lemma IsJobActive_true (r : v1.Job) :
  IsJobActive r = true <->
  v1.Succeeded (v1.Status r) = 0%Z /\ v1.Failed (v1.Status r) = 0%Z.
Proof. unfold IsJobActive. rewrite andb_true_iff, !Z.eqb_eq. reflexivity. Qed.

Lemma filter_nil_iff {A : Type} (Q : A -> Prop) `{!forall x, Decision (Q x)} (l : list A) :
  filter Q l = [] <-> forall x, x ∈ l -> ~ Q x.
Proof.
  split.
  - intros Hnil x Hin HQ. exact (filter_nil_not_elem_of Q l x Hnil HQ Hin).
  - intros Hnone. apply elem_of_nil_inv. intros x Hin.
    apply list_elem_of_filter in Hin as [HQ Hin]. exact (Hnone x Hin HQ).
Qed.

(** The three ways a cycle can go after its list query. *)
Lemma Launch_cases (c : client) (opts : launcher.LaunchOptions) (s : Store) :
  let ev := EvList (namespaceOf c opts) (selectorOf c opts) in
  (exists err, Launch c opts s = {| result := Failure err; final := s; calls := [ev] |})
  \/ Launch c opts s = skipped ev s
  \/ Launch c opts s =
       after ev (startNewJob c opts (namespaceOf c opts) (safeNameOf opts) (safeShaOf opts) s).
Proof.
  intros ev. destruct (listed c opts s) as [l err] eqn:Hlist.
  destruct err as [e|].
  - destruct (apierrors.IsNotFound e) eqn:Hnf.
    + right. rewrite (Launch_decision c opts s l (Some e) Hlist) by congruence.
      cbn zeta. repeat case_match; auto.
    + left. eexists. exact (Launch_list_failure c opts s l e Hlist Hnf).
  - right. rewrite (Launch_decision c opts s l None Hlist) by congruence.
    cbn zeta. repeat case_match; auto.
Qed.


(** ** The dispatch decision *)

(** C1. When a listed record carries the normalized commit id under the
    commit label, the cycle ends right after the list query with no record
    returned, the store as it was and nothing submitted, whatever else is
    listed and whether or not a listed record is active: the commit check
    comes before the active check. *)
Theorem Launch_skips_recorded_commit (c : client) (opts : launcher.LaunchOptions)
    (s : Store) (items : list v1.Job) :
  listed c opts s = ({| v1.Items := items |}, None) ->
  (exists r, r ∈ items /\
             index (v1.Labels r) CommitShaLabelKey = ToValidValue (launcher.GitSHA opts)) ->
  Launch c opts s =
    {| result := Return []; final := s;
       calls := [EvList (namespaceOf c opts) (selectorOf c opts)] |}.
Proof.
  intros Hlist [r [Hin Hsha]].
  rewrite (Launch_decision c opts s _ None Hlist) by congruence. cbn zeta.
  cbn [v1.Items].
  destruct (filter (forCommit (safeShaOf opts)) items) as [|r1 rs] eqn:Hfilter;
    [|reflexivity].
  exfalso. exact (filter_nil_not_elem_of _ _ r Hfilter Hsha Hin).
Qed.



(** C10. With an empty namespace override the list query and the creation
    are made in the namespace of the launcher; with a non-empty override
    both are made in the override.  There is exactly one list query, and a
    record that is persisted is persisted in that namespace. *)
Theorem Launch_namespace (c : client) (opts : launcher.LaunchOptions) (s : Store) :
  let override := repo.Namespace (launcher.Repository opts) in
  let r := Launch c opts s in
  let uses (namespace : string) :=
    (exists sel, queries (calls r) = [(namespace, sel)])
    /\ (forall n job, (n, job) ∈ submissions (calls r) -> n = namespace)
    /\ (final r = s \/ exists job, final r = s ++ [(namespace, job)]) in
  (override = "" -> uses (ns c)) /\ (override <> "" -> uses override).
Proof.
  intros override r uses.
  assert (Huses : uses (namespaceOf c opts)).
  { subst uses r. cbn beta.
    destruct (Launch_cases c opts s) as [[err Hrun]|[Hrun|Hrun]]; rewrite Hrun.
    - cbn. split; [eauto|]. split; [|now left].
      intros n job Hin. now apply elem_of_nil in Hin.
    - cbn. split; [eauto|]. split; [|now left].
      intros n job Hin. now apply elem_of_nil in Hin.
    - cbn [after calls final queries submissions omap list_omap].
      fold (queries (calls (startNewJob c opts (namespaceOf c opts) (safeNameOf opts)
                              (safeShaOf opts) s))).
      fold (submissions (calls (startNewJob c opts (namespaceOf c opts) (safeNameOf opts)
                                  (safeShaOf opts) s))).
      destruct (startNewJob_ends c opts (namespaceOf c opts) (safeNameOf opts)
                  (safeShaOf opts) s) as [Hq Hend].
      cbn zeta in Hq, Hend. rewrite Hq. split; [eauto|].
      destruct Hend as [[err [_ [Hfin [Hsub|[job Hsub]]]]]|[job [_ [Hfin Hsub]]]];
        rewrite Hsub, Hfin.
      + split; [|now left]. intros n job Hin. now apply elem_of_nil in Hin.
      + split; [|now left]. intros n job' Hin.
        apply list_elem_of_singleton in Hin. congruence.
      + split; [|right; eauto]. intros n job' Hin.
        apply list_elem_of_singleton in Hin. congruence. }
  unfold namespaceOf in Huses. fold override in Huses.
  split; intros Hov; destruct (decide (override = "")); try contradiction; exact Huses.
Qed.

(** C4, as amended.  A cycle that ends without an error adds at most one
    record to the store: either nothing is submitted and the store is as it
    was, because a listed record already carries the commit or a listed
    record is still active; or no listed record carries the commit, none is
    active, and exactly one record is submitted and persisted, labelled
    with the commit - never two. *)
Theorem Launch_adds_at_most_one_record (c : client) (opts : launcher.LaunchOptions)
    (s : Store) (created : list v1.Job) :
  result (Launch c opts s) = Return created ->
  let r := Launch c opts s in
  let items := v1.Items (fst (listed c opts s)) in
  let sha := ToValidValue (launcher.GitSHA opts) in
  (created = [] /\ final r = s /\ submissions (calls r) = [] /\
   ((exists old, old ∈ items /\ index (v1.Labels old) CommitShaLabelKey = sha)
    \/ (exists old, old ∈ items /\ v1.Succeeded (v1.Status old) = 0%Z
                                 /\ v1.Failed (v1.Status old) = 0%Z)))
  \/ (exists job,
        created = [job] /\ final r = s ++ [(namespaceOf c opts, job)] /\
        submissions (calls r) = [(namespaceOf c opts, job)] /\
        index (v1.Labels job) CommitShaLabelKey = sha /\
        (forall old, old ∈ items ->
           index (v1.Labels old) CommitShaLabelKey <> sha /\ IsJobActive old = false)).
Proof.
  intros Hres r items sha. subst r items sha.
  destruct (listed c opts s) as [l err] eqn:Hlist. cbn [fst].
  assert (Hnf : forall e, err = Some e -> apierrors.IsNotFound e = true).
  { intros e ->. destruct (apierrors.IsNotFound e) eqn:Hnf; [reflexivity|].
    rewrite (Launch_list_failure c opts s l e Hlist Hnf) in Hres. discriminate. }
  pose proof (Launch_decision c opts s l err Hlist Hnf) as Hrun. cbn zeta in Hrun.
  destruct (filter (forCommit (safeShaOf opts)) (v1.Items l)) as [|r1 rs1] eqn:Hsha.
  - destruct (filter (fun r => IsJobActive r = true) (v1.Items l)) as [|r2 rs2] eqn:Hact.
    + right. rewrite Hrun in Hres |- *. cbn [after result final calls] in Hres |- *.
      destruct (startNewJob_ends c opts (namespaceOf c opts) (safeNameOf opts)
                  (safeShaOf opts) s) as [_ [[e [He _]]|[job [Hjob [Hfin Hsub]]]]].
      { rewrite He in Hres. discriminate. }
      rewrite Hjob in Hres. injection Hres as <-.
      exists job. split; [reflexivity|]. split; [exact Hfin|].
      split; [exact Hsub|]. split.
      * assert (Hin : EvCreate (namespaceOf c opts) job
                      ∈ calls (startNewJob c opts (namespaceOf c opts) (safeNameOf opts)
                                 (safeShaOf opts) s)).
        { apply elem_of_submissions. rewrite Hsub. apply list_elem_of_singleton.
          reflexivity. }
        apply startNewJob_submits in Hin as [_ [found [template [_ [_ [_ ->]]]]]].
        cbn [v1.Labels index]. now rewrite lookup_insert_eq.
      * intros old Hin. split.
        -- exact (proj1 (filter_nil_iff _ _) Hsha old Hin).
        -- destruct (IsJobActive old) eqn:Hold; [|reflexivity].
           exfalso. exact (proj1 (filter_nil_iff _ _) Hact old Hin Hold).
    + left. rewrite Hrun in Hres |- *. cbn in Hres |- *.
      injection Hres as <-. repeat (split; [reflexivity|]).
      right. exists r2.
      assert (Hin : r2 ∈ filter (fun r => IsJobActive r = true) (v1.Items l)).
      { rewrite Hact. apply list_elem_of_here. }
      apply list_elem_of_filter in Hin as [Hr2 Hin].
      split; [exact Hin|]. now apply IsJobActive_true.
  - left. rewrite Hrun in Hres |- *. cbn in Hres |- *.
    injection Hres as <-. repeat (split; [reflexivity|]).
    left. exists r1.
    assert (Hin : r1 ∈ filter (forCommit (safeShaOf opts)) (v1.Items l)).
    { rewrite Hsha. apply list_elem_of_here. }
    apply list_elem_of_filter in Hin as [Hr1 Hin]. now split.
Qed.

(** ** The materialization *)

(** C3. [trimLength] with a bound that is not negative keeps the leading
    characters, as many as the bound allows and never more than the text
    has; it neither pads nor fails.  [startNewJob] never panics, and the
    record it submits is named by the repository name cut to 20 characters,
    a hyphen, and the commit id cut to 30 minus the length of that prefix:
    at most 31 characters. *)
Theorem job_name_truncation (c : client) (opts : launcher.LaunchOptions)
    (ns safeName safeSha : string) (s : Store) :
  (forall (text : string) (bound : Z), (0 <= bound)%Z ->
     exists kept rest,
       trimLength text bound = Some kept /\ text = kept +:+ rest /\
       String.length kept = Nat.min (Z.to_nat bound) (String.length text))
  /\ result (startNewJob c opts ns safeName safeSha s) <> Panic
  /\ (forall n job,
        EvCreate n job ∈ calls (startNewJob c opts ns safeName safeSha s) ->
        exists namePrefix shaPart,
          trimLength safeName 20 = Some namePrefix /\
          trimLength safeSha (30 - Z.of_nat (String.length namePrefix)) = Some shaPart /\
          String.length namePrefix = Nat.min 20 (String.length safeName) /\
          String.length shaPart
          = Nat.min (30 - String.length namePrefix) (String.length safeSha) /\
          v1.Name job = namePrefix +:+ "-" +:+ shaPart /\
          (String.length (v1.Name job) <= 31)%nat).
Proof.
  split; [|split].
  - intros text bound Hbound.
    destruct (leading_prefix (Z.to_nat bound) text) as [rest Hrest].
    exists (leading (Z.to_nat bound) text), rest.
    split; [now apply trimLength_leading|]. split; [exact Hrest|].
    apply leading_length.
  - apply startNewJob_no_panic.
  - intros n job Hin.
    apply startNewJob_submits in Hin as [_ [found [template [_ [_ [_ ->]]]]]].
    destruct (startNewJob_trims safeName safeSha) as [Hname Hsha].
    exists (leading 20 safeName), (leading (30 - String.length (leading 20 safeName)) safeSha).
    split; [exact Hname|]. split; [exact Hsha|].
    split; [apply leading_length|]. split; [apply leading_length|].
    split; [reflexivity|]. cbn [v1.Name].
    rewrite !length_append, !leading_length. cbn [String.length]. lia.
Qed.

(** C6. The record submitted by [startNewJob] carries the labels of the
    loaded template and the three keys of the launcher, and no other key:
    the commit key holds the commit id, the repository key the repository
    name, the managed-by key its fixed value, and every other key holds
    what the template had there. *)
Theorem materialized_labels (c : client) (opts : launcher.LaunchOptions)
    (ns safeName safeSha : string) (s : Store) (n : string) (job : v1.Job) :
  EvCreate n job ∈ calls (startNewJob c opts ns safeName safeSha s) ->
  exists file template labels,
    EvLoadFile file ∈ calls (startNewJob c opts ns safeName safeSha s) /\
    LoadFile file = (template, None) /\
    v1.Labels job = Some labels /\
    dom labels
    = {[ DefaultSelectorKey; RepositoryLabelKey; CommitShaLabelKey ]}
      ∪ dom (default ∅ (v1.Labels template)) /\
    labels !! CommitShaLabelKey = Some safeSha /\
    (RepositoryLabelKey <> CommitShaLabelKey ->
     labels !! RepositoryLabelKey = Some safeName) /\
    (DefaultSelectorKey <> RepositoryLabelKey -> DefaultSelectorKey <> CommitShaLabelKey ->
     labels !! DefaultSelectorKey = Some DefaultSelectorValue) /\
    (forall key, key <> DefaultSelectorKey -> key <> RepositoryLabelKey ->
                 key <> CommitShaLabelKey ->
                 labels !! key = default ∅ (v1.Labels template) !! key).
Proof.
  intros Hin.
  assert (Hload : exists file template,
             EvLoadFile file ∈ calls (startNewJob c opts ns safeName safeSha s) /\
             LoadFile file = (template, None) /\
             v1.Labels job =
               Some (<[CommitShaLabelKey := safeSha]>
                       (<[RepositoryLabelKey := safeName]>
                          (<[DefaultSelectorKey := DefaultSelectorValue]>
                             (default ∅ (v1.Labels template)))))).
  { revert Hin. paths safeName safeSha; intros H; in_calls H.
    all: injection H as -> ->; eexists _, _; split; [called|]; split; eauto. }
  destruct Hload as [file [template [Hcalled [Hload Hlabels]]]].
  exists file, template. eexists. split; [exact Hcalled|]. split; [exact Hload|].
  split; [exact Hlabels|]. split; [|split; [|split; [|split]]].
  - rewrite !dom_insert_L. apply set_eq. intros key.
    rewrite !elem_of_union, !elem_of_singleton. tauto.
  - apply lookup_insert_eq.
  - intros Hne. rewrite lookup_insert_ne by congruence. apply lookup_insert_eq.
  - intros Hne1 Hne2. rewrite !lookup_insert_ne by congruence. apply lookup_insert_eq.
  - intros key Hne1 Hne2 Hne3. now rewrite !lookup_insert_ne by congruence.
Qed.

(** ** The template loader *)

(** C5. When the versionStream/git-operator directory of the checkout
    exists, the only Job file [startNewJob] looks for and loads is the
    job.yaml of that directory, whatever else the checkout holds; when it
    does not exist, it is the job.yaml of .jx/git-operator.  If that file
    exists it is loaded, and a record that is submitted is made from the
    template loaded from it. *)
Theorem job_file_resolution (c : client) (opts : launcher.LaunchOptions)
    (ns safeName safeSha : string) (s : Store) :
  let r := startNewJob c opts ns safeName safeSha s in
  let versionStream := Join [launcher.Dir opts; "versionStream"; "git-operator"] in
  let original := Join [launcher.Dir opts; ".jx"; "git-operator"] in
  let loads (file : string) :=
    (forall path, EvFileExists path ∈ calls r \/ EvLoadFile path ∈ calls r -> path = file)
    /\ (FileExists file = (true, None) -> EvLoadFile file ∈ calls r)
    /\ (forall n job, EvCreate n job ∈ calls r ->
          exists template, LoadFile file = (template, None)
                           /\ v1.Spec job = v1.Spec template
                           /\ v1.Status job = v1.Status template) in
  (DirExists versionStream = (true, None) -> loads (Join [versionStream; "job.yaml"]))
  /\ (DirExists versionStream = (false, None) -> loads (Join [original; "job.yaml"])).
Proof.
  cbn zeta. paths safeName safeSha.
  all: split; intros Hdir; try discriminate Hdir.
  all: split;
    [ intros path [H|H]; in_calls H; congruence
    | split;
      [ intros Hfile; first [discriminate Hfile | solve [called]]
      | intros n job H; in_calls H; injection H as -> ->;
        (eexists; split; [reflexivity|]; split; reflexivity) ] ].
Qed.

(** C9. When the resolved Job file does not exist, [startNewJob] ends
    after the two existence checks with an error of its own that names the
    repository and the file; it is the only failure that is not the
    wrapped error of a collaborator, so it cannot be taken for a failure to
    parse the file or for a failure of the file system, the runner or the
    store. *)
Theorem missing_job_file_is_reported_apart (c : client) (opts : launcher.LaunchOptions)
    (ns safeName safeSha : string) (s : Store) :
  let r := startNewJob c opts ns safeName safeSha s in
  let versionStream := Join [launcher.Dir opts; "versionStream"; "git-operator"] in
  let original := Join [launcher.Dir opts; ".jx"; "git-operator"] in
  (forall found,
     DirExists versionStream = (found, None) ->
     FileExists (Join [if found then versionStream else original; "job.yaml"])
     = (false, None) ->
     r = {| result :=
              Failure (Errorf ("repository " +:+ safeName +:+ " does not have a Job file: "
                               +:+ Join [if found then versionStream else original;
                                         "job.yaml"]));
            final := s;
            calls := [EvDirExists versionStream;
                      EvFileExists (Join [if found then versionStream else original;
                                          "job.yaml"])] |})
  /\ (forall msg,
        result r = Failure (Errorf msg) ->
        exists found,
          DirExists versionStream = (found, None)
          /\ FileExists (Join [if found then versionStream else original; "job.yaml"])
             = (false, None))
  /\ (forall err,
        result r = Failure err ->
        (exists msg, err = Errorf msg) \/ (exists cause msg, err = Wrapf cause msg)).
Proof.
  cbn zeta. paths safeName safeSha.
  all: split;
    [ intros found Hdir Hfile; try discriminate Hdir; injection Hdir as <-;
      first [reflexivity | congruence]
    | split;
      [ intros msg Hres; try discriminate Hres;
        first [ exists true; split; [reflexivity|assumption]
              | exists false; split; [reflexivity|assumption] ]
      | intros err Hres; try discriminate Hres; injection Hres as <-; eauto ] ].
Qed.

(** The command runner along a run of [startNewJob]: not called when
    resource-apply is disabled; called at most once, with kubectl apply on
    an absolute directory; and a failure of that call ends the run with its
    error wrapped, nothing submitted and the store as it was. *)
Lemma startNewJob_commands (c : client) (opts : launcher.LaunchOptions)
    (ns safeName safeSha : string) (s : Store) :
  let r := startNewJob c opts ns safeName safeSha s in
  (launcher.NoResourceApply opts = true -> commands (calls r) = [])
  /\ (forall cmd, cmd ∈ commands (calls r) ->
        exists absDir,
          cmd = {| cmdrunner.Name := "kubectl"; cmdrunner.Args := ["apply"; "-f"; absDir] |}
          /\ forall out e, runner c cmd = (out, Some e) ->
               result r = Failure (Wrapf e ("failed to apply resources in dir " +:+ absDir))
               /\ final r = s /\ submissions (calls r) = []).
Proof.
  cbn zeta. paths safeName safeSha; reduce_calls.
  all: split;
    [ intros Hflag; first [reflexivity | discriminate Hflag]
    | intros cmd Hcmd; in_calls Hcmd; subst cmd;
      (eexists; split; [reflexivity|]; intros out e' Hrun; repeat split; congruence) ].
Qed.

(** C7. With resource-apply disabled a cycle never calls the command
    runner, whatever directories exist.  With it enabled, when the Job file
    is loaded and a resources directory exists next to it, the runner is
    called with kubectl apply on the absolute path of that directory; and
    whenever a call of the runner fails, the cycle ends with that error
    wrapped, nothing is submitted and the store is as it was. *)
Theorem resource_apply_gating (c : client) (opts : launcher.LaunchOptions) (s : Store) :
  (launcher.NoResourceApply opts = true -> commands (calls (Launch c opts s)) = [])
  /\ (forall cmd out e,
        cmd ∈ commands (calls (Launch c opts s)) ->
        runner c cmd = (out, Some e) ->
        exists absDir,
          cmd = {| cmdrunner.Name := "kubectl"; cmdrunner.Args := ["apply"; "-f"; absDir] |}
          /\ result (Launch c opts s)
             = Failure (Wrapf e ("failed to apply resources in dir " +:+ absDir))
          /\ final (Launch c opts s) = s
          /\ submissions (calls (Launch c opts s)) = [])
  /\ (forall ns safeName safeSha found template absDir,
        launcher.NoResourceApply opts = false ->
        DirExists (Join [launcher.Dir opts; "versionStream"; "git-operator"])
        = (found, None) ->
        let folder :=
          if found then Join [launcher.Dir opts; "versionStream"; "git-operator"]
          else Join [launcher.Dir opts; ".jx"; "git-operator"] in
        FileExists (Join [folder; "job.yaml"]) = (true, None) ->
        LoadFile (Join [folder; "job.yaml"]) = (template, None) ->
        DirExists (Join [folder; "resources"]) = (true, None) ->
        Abs (Join [folder; "resources"]) = (absDir, None) ->
        commands (calls (startNewJob c opts ns safeName safeSha s))
        = [{| cmdrunner.Name := "kubectl"; cmdrunner.Args := ["apply"; "-f"; absDir] |}]).
Proof.
  split; [|split].
  - intros Hflag.
    destruct (Launch_cases c opts s) as [[err Hrun]|[Hrun|Hrun]]; rewrite Hrun;
      try reflexivity.
    cbn [after calls commands omap list_omap].
    now apply startNewJob_commands.
  - intros cmd out e Hcmd Hfails.
    destruct (Launch_cases c opts s) as [[err Hrun]|[Hrun|Hrun]]; rewrite Hrun in Hcmd |- *.
    + cbn in Hcmd. now apply elem_of_nil in Hcmd.
    + cbn in Hcmd. now apply elem_of_nil in Hcmd.
    + cbn [after calls commands omap list_omap] in Hcmd.
      cbn [after calls result final submissions omap list_omap].
      apply startNewJob_commands in Hcmd as [absDir [Hshape Hends]].
      exists absDir. split; [exact Hshape|]. exact (Hends out e Hfails).
  - intros ns safeName safeSha found template absDir Hflag Hdir folder Hfile Hload Hres Habs.
    subst folder.
    destruct (startNewJob_trims safeName safeSha) as [Hname Hsha].
    unfold_run. rewrite Hname, Hsha. reduce_run.
    rewrite Hdir. reduce_run. destruct found; reduce_run.
    all: rewrite Hfile; reduce_run; rewrite Hload; reduce_run; rewrite Hflag; reduce_run.
    all: rewrite Hres; reduce_run; rewrite Habs; reduce_run.
    all: answer_runner; reduce_run; [reflexivity|].
    all: answer_create; reflexivity.
Qed.

(** ** More on truncation and names *)

(** X1. [trimLength] panics exactly on a negative bound, whatever the text:
    even the empty text is longer than a negative bound, and the slice
    [text[0:length]] is then out of range. *)
Theorem trimLength_panics_iff_negative (text : string) (bound : Z) :
  trimLength text bound = None <-> (bound < 0)%Z.
Proof.
  unfold trimLength.
  destruct (Z.leb_spec (Z.of_nat (String.length text)) bound) as [Hle|Hgt];
    destruct (Z.ltb_spec bound 0) as [Hneg|Hpos]; split; intros H;
    try discriminate H; try reflexivity; lia.
Qed.

(** X2. Truncating twice is truncating once: what [trimLength] keeps is left
    alone by [trimLength] under the same bound or a larger one. *)
Theorem trimLength_idempotent (text kept : string) (bound larger : Z) :
  trimLength text bound = Some kept ->
  (bound <= larger)%Z ->
  trimLength kept larger = Some kept.
Proof.
  unfold trimLength. intros Hkept Hlarger.
  destruct (Z.leb_spec (Z.of_nat (String.length text)) bound) as [Hle|Hgt].
  - injection Hkept as <-.
    destruct (Z.leb_spec (Z.of_nat (String.length text)) larger); [reflexivity | lia].
  - destruct (Z.ltb_spec bound 0) as [Hneg|Hpos]; [discriminate Hkept|].
    injection Hkept as <-.
    pose proof (leading_length (Z.to_nat bound) text) as Hlen. unfold leading in Hlen.
    destruct (Z.leb_spec
                (Z.of_nat (String.length (String.substring 0 (Z.to_nat bound) text)))
                larger); [reflexivity | lia].
Qed.

(** X3. A repository name of at most 20 characters and a commit id that fits in
    what is left of the 30 are not cut: the record is named by the two,
    joined by a hyphen. *)
Theorem short_names_are_kept (c : client) (opts : launcher.LaunchOptions)
    (ns safeName safeSha : string) (s : Store) (n : string) (job : v1.Job) :
  (String.length safeName <= 20)%nat ->
  (String.length safeName + String.length safeSha <= 30)%nat ->
  EvCreate n job ∈ calls (startNewJob c opts ns safeName safeSha s) ->
  v1.Name job = safeName +:+ "-" +:+ safeSha.
Proof.
  intros Hname Hsha Hin.
  apply startNewJob_submits in Hin as [_ [found [template [_ [_ [_ ->]]]]]].
  cbn [v1.Name]. rewrite (leading_all 20 safeName) by exact Hname.
  rewrite (leading_all _ safeSha) by lia. reflexivity.
Qed.

(** X4. However long the repository name is, the name of the record keeps at
    least the first 10 characters of the commit id, or all of it when it is
    shorter, after the hyphen. *)
Theorem name_keeps_ten_of_commit (c : client) (opts : launcher.LaunchOptions)
    (ns safeName safeSha : string) (s : Store) (n : string) (job : v1.Job) :
  EvCreate n job ∈ calls (startNewJob c opts ns safeName safeSha s) ->
  exists namePrefix shaPart rest,
    v1.Name job = namePrefix +:+ "-" +:+ shaPart /\
    safeSha = shaPart +:+ rest /\
    (Nat.min 10 (String.length safeSha) <= String.length shaPart)%nat /\
    (String.length namePrefix <= 20)%nat.
Proof.
  intros Hin.
  apply startNewJob_submits in Hin as [_ [found [template [_ [_ [_ ->]]]]]].
  destruct (leading_prefix (30 - String.length (leading 20 safeName)) safeSha)
    as [rest Hrest].
  exists (leading 20 safeName),
    (leading (30 - String.length (leading 20 safeName)) safeSha), rest.
  split; [reflexivity|]. split; [exact Hrest|].
  rewrite !leading_length. lia.
Qed.

(** ** How a run of [startNewJob] fails *)

Ltac use_answers :=
  repeat match goal with
         | H : ?call = _ |- context [?call] => rewrite H
         end.

(** X5. [startNewJob] stops at the first collaborator that answers with an
    error.  When the run ends with a wrapped error, the wrapped cause is the
    error of the last call made and every call before it was answered
    without an error; when it ends otherwise - with the created record or
    with the error for a missing Job file - no call was answered with an
    error. *)
Theorem startNewJob_stops_at_first_error (c : client) (opts : launcher.LaunchOptions)
    (ns safeName safeSha : string) (s : Store) :
  let r := startNewJob c opts ns safeName safeSha s in
  match result r with
  | Failure (Wrapf cause _) =>
      exists lastCall,
        last (calls r) = Some lastCall /\
        errorOf c s lastCall = Some cause /\
        forall ev, ev ∈ removelast (calls r) -> errorOf c s ev = None
  | _ => forall ev, ev ∈ calls r -> errorOf c s ev = None
  end.
Proof.
  cbn zeta. paths safeName safeSha.
  all: try (eexists; split; [reflexivity|]; split;
            [cbn [errorOf]; use_answers; reflexivity|]; cbn [removelast]).
  all: intros ev Hev; in_calls Hev; subst ev; cbn [errorOf]; use_answers; reflexivity.
Qed.


(** Submitting the record is the last thing a run does: whenever a record
    is submitted, the submission is the final call, after every check of
    the file system and after kubectl apply, and at most one command has
    been run. *)
Lemma startNewJob_submits_last (c : client) (opts : launcher.LaunchOptions)
    (ns safeName safeSha : string) (s : Store) (n : string) (job : v1.Job) :
  let r := startNewJob c opts ns safeName safeSha s in
  ((n, job) ∈ submissions (calls r) -> last (calls r) = Some (EvCreate n job))
  /\ (length (commands (calls r)) <= 1)%nat.
Proof.
  cbn zeta. paths safeName safeSha; reduce_calls.
  all: split; [intros Hin; in_calls Hin; injection Hin as -> ->; reflexivity
              | cbn [length]; lia].
Qed.

(** Disabling resource-apply only takes steps out of a run: what a run
    creates with resource-apply enabled, the run on the same checkout with
    it disabled creates as well. *)
Lemma startNewJob_without_apply (c : client) (opts opts' : launcher.LaunchOptions)
    (ns safeName safeSha : string) (s : Store) (created : list v1.Job) :
  launcher.Dir opts' = launcher.Dir opts ->
  launcher.NoResourceApply opts' = true ->
  result (startNewJob c opts ns safeName safeSha s) = Return created ->
  result (startNewJob c opts' ns safeName safeSha s) = Return created
  /\ final (startNewJob c opts' ns safeName safeSha s)
     = final (startNewJob c opts ns safeName safeSha s)
  /\ submissions (calls (startNewJob c opts' ns safeName safeSha s))
     = submissions (calls (startNewJob c opts ns safeName safeSha s))
  /\ commands (calls (startNewJob c opts' ns safeName safeSha s)) = [].
Proof.
  intros Hdir Hflag.
  destruct (startNewJob_trims safeName safeSha) as [Hname Hsha].
  unfold_run. rewrite Hname, Hsha, Hdir, Hflag. reduce_run.
  answer_dir; reduce_run; try discriminate.
  all: answer_file; reduce_run; try discriminate.
  all: answer_load; reduce_run; try discriminate.
  all: answer_flag; reduce_run.
  all: try (answer_dir; reduce_run; try discriminate).
  all: try (answer_abs; reduce_run; try discriminate).
  all: try (answer_runner; reduce_run; try discriminate).
  all: answer_create; reduce_run; reduce_calls; intros Hres; try discriminate Hres.
  all: repeat split; assumption.
Qed.

(** ** More on the dispatch decision *)

(** A listed record of the commit or a listed active record ends the cycle
    after the list query. *)
Lemma Launch_blocked (c : client) (opts : launcher.LaunchOptions) (s : Store)
    (l : v1.JobList) (err : option error) (r : v1.Job) :
  listed c opts s = (l, err) ->
  (forall e, err = Some e -> apierrors.IsNotFound e = true) ->
  r ∈ v1.Items l ->
  forCommit (safeShaOf opts) r \/ IsJobActive r = true ->
  Launch c opts s = skipped (EvList (namespaceOf c opts) (selectorOf c opts)) s.
Proof.
  intros Hlist Hnf Hin Hblocks.
  rewrite (Launch_decision c opts s l err Hlist Hnf). cbn zeta.
  destruct (filter (forCommit (safeShaOf opts)) (v1.Items l)) as [|r1 rs1] eqn:Hsha;
    [|reflexivity].
  destruct (filter (fun r => IsJobActive r = true) (v1.Items l)) as [|r2 rs2] eqn:Hact;
    [|reflexivity].
  exfalso. destruct Hblocks as [Hr|Hr].
  - exact (filter_nil_not_elem_of _ _ r Hsha Hr Hin).
  - exact (filter_nil_not_elem_of _ _ r Hact Hr Hin).
Qed.

(** The calls of a cycle begin with its one list query. *)
Lemma Launch_calls (c : client) (opts : launcher.LaunchOptions) (s : Store) :
  exists rest,
    calls (Launch c opts s) = EvList (namespaceOf c opts) (selectorOf c opts) :: rest
    /\ queries rest = []
    /\ (rest = [] \/
        rest = calls (startNewJob c opts (namespaceOf c opts) (safeNameOf opts)
                        (safeShaOf opts) s)).
Proof.
  destruct (Launch_cases c opts s) as [[err Hrun]|[Hrun|Hrun]]; rewrite Hrun.
  - exists []. cbn. auto.
  - exists []. cbn. auto.
  - eexists. cbn [after calls]. split; [reflexivity|]. split; [|now right].
    apply startNewJob_ends.
Qed.

(** X9. Every cycle starts with one list query, made before anything else is
    looked at, and makes no other: it asks, in the namespace of the cycle,
    for the records that match the selector of the launcher and carry the
    normalized repository name under the repository label. *)
Theorem Launch_lists_first (c : client) (opts : launcher.LaunchOptions) (s : Store) :
  exists rest,
    calls (Launch c opts s)
    = EvList (if decide (repo.Namespace (launcher.Repository opts) = "") then ns c
              else repo.Namespace (launcher.Repository opts))
        (selector c +:+ "," +:+ RepositoryLabelKey +:+ "="
         +:+ ToValidValue (repo.Name (launcher.Repository opts)))
      :: rest
    /\ queries rest = [].
Proof.
  destruct (Launch_calls c opts s) as [rest [Hcalls [Hqueries _]]].
  exists rest. split; [exact Hcalls | exact Hqueries].
Qed.

(** X10. A listed record that is still active ends the cycle with nothing
    created, whether or not it is the record of the commit and whatever
    else is listed. *)
Theorem Launch_active_record_blocks (c : client) (opts : launcher.LaunchOptions)
    (s : Store) (items : list v1.Job) (r : v1.Job) :
  listed c opts s = ({| v1.Items := items |}, None) ->
  r ∈ items ->
  v1.Succeeded (v1.Status r) = 0%Z ->
  v1.Failed (v1.Status r) = 0%Z ->
  Launch c opts s =
    {| result := Return []; final := s;
       calls := [EvList (namespaceOf c opts) (selectorOf c opts)] |}.
Proof.
  intros Hlist Hin Hs Hf.
  apply (Launch_blocked c opts s _ None r Hlist); [congruence | exact Hin |].
  right. now apply IsJobActive_true.
Qed.

(** X11. Running the cycle again after it created a record: as long as the list
    query shows that record, the second cycle for the same commit creates
    nothing and leaves the store alone, whatever state the record is in. *)
Theorem Launch_again_skips (c : client) (opts : launcher.LaunchOptions)
    (s : Store) (job : v1.Job) (items : list v1.Job) :
  result (Launch c opts s) = Return [job] ->
  let s' := final (Launch c opts s) in
  listed c opts s' = ({| v1.Items := items |}, None) ->
  (exists shown, shown ∈ items /\ v1.Labels shown = v1.Labels job) ->
  Launch c opts s' =
    {| result := Return []; final := s';
       calls := [EvList (namespaceOf c opts) (selectorOf c opts)] |}.
Proof.
  intros Hres s' Hlist [shown [Hin Hlabels]].
  apply (Launch_blocked c opts s' _ None shown Hlist); [congruence | exact Hin |].
  left. unfold forCommit. rewrite Hlabels.
  destruct (Launch_cases c opts s) as [[err Hrun]|[Hrun|Hrun]]; rewrite Hrun in Hres;
    try discriminate Hres.
  cbn [after result] in Hres.
  destruct (startNewJob_ends c opts (namespaceOf c opts) (safeNameOf opts)
              (safeShaOf opts) s) as [_ [[e [He _]]|[job' [Hjob [_ Hsub]]]]].
  { rewrite He in Hres. discriminate Hres. }
  rewrite Hjob in Hres. injection Hres as ->.
  assert (Hcreate : EvCreate (namespaceOf c opts) job
                    ∈ calls (startNewJob c opts (namespaceOf c opts) (safeNameOf opts)
                               (safeShaOf opts) s)).
  { apply elem_of_submissions. rewrite Hsub. apply list_elem_of_singleton. reflexivity. }
  apply startNewJob_submits in Hcreate as [_ [found [template [_ [_ [_ ->]]]]]].
  cbn [v1.Labels index]. now rewrite lookup_insert_eq.
Qed.

(** X12. Records without the commit label.  Reading the label gives the empty
    text, so such a record counts as the record of a commit exactly when the
    normalized commit id is empty: then it ends the cycle; otherwise, if it
    has completed, the cycle goes on to create the record. *)
Theorem Launch_unlabelled_records (c : client) (opts : launcher.LaunchOptions)
    (s : Store) (items : list v1.Job) (r : v1.Job) :
  listed c opts s = ({| v1.Items := items |}, None) ->
  r ∈ items ->
  (forall old, old ∈ items ->
     (v1.Labels old = None \/
      exists labels, v1.Labels old = Some labels /\ labels !! CommitShaLabelKey = None)
     /\ IsJobActive old = false) ->
  let ev := EvList (namespaceOf c opts) (selectorOf c opts) in
  (ToValidValue (launcher.GitSHA opts) = "" ->
   Launch c opts s = {| result := Return []; final := s; calls := [ev] |})
  /\ (ToValidValue (launcher.GitSHA opts) <> "" ->
      Launch c opts s =
        after ev (startNewJob c opts (namespaceOf c opts)
                    (ToValidValue (repo.Name (launcher.Repository opts)))
                    (ToValidValue (launcher.GitSHA opts)) s)).
Proof.
  intros Hlist Hin Hold ev.
  assert (Hindex : forall old, old ∈ items -> index (v1.Labels old) CommitShaLabelKey = "").
  { intros old Hold_in. destruct (Hold old Hold_in) as [[Hnil|[labels [Hsome Hnone]]] _].
    - now rewrite Hnil.
    - rewrite Hsome. cbn [index]. now rewrite Hnone. }
  split.
  - intros Hsha.
    apply (Launch_blocked c opts s _ None r Hlist); [congruence | exact Hin |].
    left. unfold forCommit, safeShaOf. rewrite Hsha. now apply Hindex.
  - intros Hsha.
    rewrite (Launch_decision c opts s _ None Hlist) by congruence.
    cbn zeta. cbn [v1.Items].
    assert (Hnone : filter (forCommit (safeShaOf opts)) items = []).
    { apply filter_nil_iff. intros old Hold_in Hfor.
      unfold forCommit, safeShaOf in Hfor. rewrite (Hindex old Hold_in) in Hfor.
      congruence. }
    assert (Hidle : filter (fun r => IsJobActive r = true) items = []).
    { apply filter_nil_iff. intros old Hold_in Hact.
      destruct (Hold old Hold_in) as [_ Hdone]. congruence. }
    rewrite Hnone, Hidle. reflexivity.
Qed.


(** X14. A cycle that ends with an error has not changed the store, at whatever
    step the error came up; in particular a failed creation leaves nothing
    behind. *)
Theorem Launch_failure_keeps_store (c : client) (opts : launcher.LaunchOptions)
    (s : Store) (err : error) :
  result (Launch c opts s) = Failure err ->
  final (Launch c opts s) = s.
Proof.
  destruct (Launch_cases c opts s) as [[e Hrun]|[Hrun|Hrun]]; rewrite Hrun;
    try reflexivity.
  cbn [after result final].
  destruct (startNewJob_ends c opts (namespaceOf c opts) (safeNameOf opts)
              (safeShaOf opts) s) as [_ [[e [_ [Hfin _]]]|[job [Hjob _]]]].
  - intros _. exact Hfin.
  - rewrite Hjob. discriminate.
Qed.

(** X15. Submitting the record is the last thing a cycle does: the submission,
    if there is one, is the final call, after the list query, every check of
    the file system and kubectl apply; and a cycle runs at most one
    command. *)
Theorem Launch_submits_last (c : client) (opts : launcher.LaunchOptions)
    (s : Store) (n : string) (job : v1.Job) :
  ((n, job) ∈ submissions (calls (Launch c opts s)) ->
   last (calls (Launch c opts s)) = Some (EvCreate n job))
  /\ (length (commands (calls (Launch c opts s))) <= 1)%nat.
Proof.
  destruct (Launch_cases c opts s) as [[e Hrun]|[Hrun|Hrun]]; rewrite Hrun.
  - cbn. split; [|lia]. intros Hin. now apply elem_of_nil in Hin.
  - cbn. split; [|lia]. intros Hin. now apply elem_of_nil in Hin.
  - cbn [after calls submissions commands omap list_omap].
    destruct (startNewJob_submits_last c opts (namespaceOf c opts) (safeNameOf opts)
                (safeShaOf opts) s n job) as [Hlast Hcmd].
    split; [|exact Hcmd].
    intros Hin. specialize (Hlast Hin).
    rewrite last_cons. unfold submissions in Hlast. now rewrite Hlast.
Qed.

(** X16. Disabling resource-apply never loses a record: a cycle that ends
    without an error with resource-apply enabled ends the same way, with
    the same records returned and the same store, when it is run with
    resource-apply disabled and everything else the same - and then without
    running any command. *)
Theorem Launch_without_apply (c : client) (opts opts' : launcher.LaunchOptions)
    (s : Store) (created : list v1.Job) :
  launcher.Repository opts' = launcher.Repository opts ->
  launcher.GitSHA opts' = launcher.GitSHA opts ->
  launcher.Dir opts' = launcher.Dir opts ->
  launcher.NoResourceApply opts' = true ->
  result (Launch c opts s) = Return created ->
  result (Launch c opts' s) = Return created
  /\ final (Launch c opts' s) = final (Launch c opts s)
  /\ commands (calls (Launch c opts' s)) = [].
Proof.
  intros Hrepo Hsha Hdir Hflag Hres.
  assert (Hns : namespaceOf c opts' = namespaceOf c opts)
    by (unfold namespaceOf; now rewrite Hrepo).
  assert (Hname : safeNameOf opts' = safeNameOf opts)
    by (unfold safeNameOf; now rewrite Hrepo).
  assert (Hcommit : safeShaOf opts' = safeShaOf opts)
    by (unfold safeShaOf; now rewrite Hsha).
  assert (Hsel : selectorOf c opts' = selectorOf c opts)
    by (unfold selectorOf; now rewrite Hname).
  destruct (listed c opts s) as [l err] eqn:Hlist.
  assert (Hlist' : listed c opts' s = (l, err))
    by (unfold listed in *; now rewrite Hns, Hsel).
  assert (Hnf : forall e, err = Some e -> apierrors.IsNotFound e = true).
  { intros e ->. destruct (apierrors.IsNotFound e) eqn:Hnf; [reflexivity|].
    rewrite (Launch_list_failure c opts s l e Hlist Hnf) in Hres. discriminate Hres. }
  rewrite (Launch_decision c opts s l err Hlist Hnf) in Hres |- *.
  rewrite (Launch_decision c opts' s l err Hlist' Hnf).
  cbn zeta in Hres |- *. rewrite Hns, Hname, Hcommit, Hsel.
  destruct (filter (forCommit (safeShaOf opts)) (v1.Items l)) as [|r1 rs1].
  - destruct (filter (fun r => IsJobActive r = true) (v1.Items l)) as [|r2 rs2].
    + cbn [after result final calls commands omap list_omap] in Hres |- *.
      destruct (startNewJob_without_apply c opts opts' _ _ _ s created Hdir Hflag Hres)
        as [Hsame [Hfinal [_ Hnone]]].
      auto.
    + cbn in Hres |- *. auto.
  - cbn in Hres |- *. auto.
Qed.

(** ** Job files that cannot be used, and checkouts without resources *)

(** X7. A Job file that exists but cannot be loaded ends the run right there,
    with the loader's error wrapped in a message that names the file and
    the repository: no resource is applied and nothing is submitted. *)
Theorem unloadable_job_file_stops_run (c : client) (opts : launcher.LaunchOptions)
    (ns safeName safeSha : string) (s : Store) (found : bool) (template : v1.Job)
    (e : error) :
  let versionStream := Join [launcher.Dir opts; "versionStream"; "git-operator"] in
  let original := Join [launcher.Dir opts; ".jx"; "git-operator"] in
  let file := Join [if found then versionStream else original; "job.yaml"] in
  DirExists versionStream = (found, None) ->
  FileExists file = (true, None) ->
  LoadFile file = (template, Some e) ->
  startNewJob c opts ns safeName safeSha s =
    {| result :=
         Failure (Wrapf e ("failed to load Job file " +:+ file +:+ " in repository "
                           +:+ safeName));
       final := s;
       calls := [EvDirExists versionStream; EvFileExists file; EvLoadFile file] |}.
Proof.
  cbn zeta. intros Hdir Hfile Hload.
  unfold_run. rewrite Hdir. reduce_run.
  destruct found; reduce_run; rewrite Hfile; reduce_run; rewrite Hload; reflexivity.
Qed.

(** X8. A checkout without a resources directory next to its Job file is not
    an error: with resource-apply enabled the run looks for the directory,
    runs no command and goes on to submit the record made from the
    template. *)
Theorem missing_resources_directory_is_skipped (c : client)
    (opts : launcher.LaunchOptions) (ns safeName safeSha : string) (s : Store)
    (found : bool) (template : v1.Job) :
  let versionStream := Join [launcher.Dir opts; "versionStream"; "git-operator"] in
  let original := Join [launcher.Dir opts; ".jx"; "git-operator"] in
  let folder := if found then versionStream else original in
  let r := startNewJob c opts ns safeName safeSha s in
  launcher.NoResourceApply opts = false ->
  DirExists versionStream = (found, None) ->
  FileExists (Join [folder; "job.yaml"]) = (true, None) ->
  LoadFile (Join [folder; "job.yaml"]) = (template, None) ->
  DirExists (Join [folder; "resources"]) = (false, None) ->
  commands (calls r) = []
  /\ exists job,
       calls r = [EvDirExists versionStream; EvFileExists (Join [folder; "job.yaml"]);
                  EvLoadFile (Join [folder; "job.yaml"]);
                  EvDirExists (Join [folder; "resources"]); EvCreate ns job]
       /\ v1.Spec job = v1.Spec template.
Proof.
  cbn zeta. intros Hflag Hdir Hfile Hload Hres.
  destruct (startNewJob_trims safeName safeSha) as [Hname Hsha].
  unfold_run. rewrite Hname, Hsha, Hdir. reduce_run.
  destruct found; reduce_run.
  all: rewrite Hfile; reduce_run; rewrite Hload; reduce_run; rewrite Hflag; reduce_run.
  all: rewrite Hres; reduce_run.
  all: answer_create; reduce_run; reduce_calls.
  all: split; [reflexivity|]; eexists; split; reflexivity.
Qed.

End Properties.

(** ** Construction of the launcher *)

Section Construction_properties.

Context `{P : Platform} `{B : Bootstrap}.

(** X17. The launcher that [NewLauncher] builds.  The selector is the one given;
    the runner is the one given, or the default runner when none is given;
    a client that is given is used as it is, otherwise the client is the
    one built from the kube config.  A namespace that is not empty is kept.
    An empty namespace is replaced by the current namespace only when the
    client had to be built: with a client given it stays empty. *)
Theorem NewLauncher_builds (kube : option kubernetes.Interface) (ns0 sel : string)
    (rn : option (cmdrunner.Command -> string * option error)) (c : client) :
  NewLauncher kube ns0 sel rn = Return c ->
  selector c = sel
  /\ runner c = default DefaultCommandRunner rn
  /\ match kube with
     | Some given => kubeClient c = given /\ ns c = ns0
     | None =>
         snd CreateKubeConfig = None
         /\ NewForConfig (fst CreateKubeConfig) = (kubeClient c, None)
         /\ (ns0 <> "" -> ns c = ns0)
         /\ (ns0 = "" -> CurrentNamespace = (ns c, None))
     end.
Proof.
  unfold NewLauncher. destruct kube as [given|].
  - intros [= <-]. destruct rn; cbn; auto.
  - destruct CreateKubeConfig as [cfg [e|]]; [discriminate|]. cbn [fst snd].
    destruct (NewForConfig cfg) as [built [e|]]; [discriminate|].
    destruct (decide (ns0 = "")) as [Hempty|Hgiven].
    + destruct CurrentNamespace as [current [e|]]; [discriminate|].
      intros [= <-]. destruct rn; cbn; repeat split; auto; congruence.
    + intros [= <-]. destruct rn; cbn; repeat split; auto; congruence.
Qed.

(** X18. When [NewLauncher] fails.  It never panics and never fails when a
    client is given.  Without one it fails with the wrapped error of the
    first step that fails: making the kube config, then building the
    client, then - only when no namespace is given - finding the current
    namespace. *)
Theorem NewLauncher_fails (kube : option kubernetes.Interface) (ns0 sel : string)
    (rn : option (cmdrunner.Command -> string * option error)) :
  NewLauncher kube ns0 sel rn <> Panic
  /\ forall err,
       NewLauncher kube ns0 sel rn = Failure err ->
       kube = None
       /\ ((exists e, snd CreateKubeConfig = Some e
                      /\ err = Wrapf e "failed to create kube config")
           \/ (exists e, snd CreateKubeConfig = None
                         /\ snd (NewForConfig (fst CreateKubeConfig)) = Some e
                         /\ err = Wrapf e "failed to create the kube client")
           \/ (exists e, snd CreateKubeConfig = None
                         /\ snd (NewForConfig (fst CreateKubeConfig)) = None
                         /\ ns0 = ""
                         /\ snd CurrentNamespace = Some e
                         /\ err = Wrapf e "failed to find the current namespace")).
Proof.
  unfold NewLauncher. destruct kube as [given|].
  - split; [discriminate|]. intros err Hfail. discriminate Hfail.
  - destruct CreateKubeConfig as [cfg [e|]]; cbn [fst snd].
    { split; [discriminate|]. intros err [= <-]. split; [reflexivity|]. left. eauto. }
    destruct (NewForConfig cfg) as [built [e|]]; cbn [fst snd].
    { split; [discriminate|]. intros err [= <-]. split; [reflexivity|].
      right. left. eauto. }
    destruct (decide (ns0 = "")) as [Hempty|Hgiven].
    + destruct CurrentNamespace as [current [e|]]; cbn [fst snd].
      * split; [discriminate|]. intros err [= <-]. split; [reflexivity|].
        right. right. exists e. auto.
      * split; [discriminate|]. intros err Hfail. discriminate Hfail.
    + split; [discriminate|]. intros err Hfail. discriminate Hfail.
Qed.

(** X19. The namespace a cycle works in, from construction to the list query.
    An override on the repository wins; without one it is the namespace
    given to [NewLauncher]; when that is empty as well it is the current
    namespace if [NewLauncher] built the client, and the empty namespace if
    the client was given. *)
Theorem NewLauncher_then_Launch_namespace (kube : option kubernetes.Interface)
    (ns0 sel : string) (rn : option (cmdrunner.Command -> string * option error))
    (c : client) (opts : launcher.LaunchOptions) (s : Store) :
  NewLauncher kube ns0 sel rn = Return c ->
  let override := repo.Namespace (launcher.Repository opts) in
  let namespace :=
    if decide (override = "") then
      if decide (ns0 = "") then
        match kube with
        | Some _ => ""
        | None => fst CurrentNamespace
        end
      else ns0
    else override in
  queries (calls (Launch c opts s))
  = [(namespace,
      sel +:+ "," +:+ RepositoryLabelKey +:+ "="
      +:+ ToValidValue (repo.Name (launcher.Repository opts)))]
  /\ forall n job, (n, job) ∈ submissions (calls (Launch c opts s)) -> n = namespace.
Proof.
  intros Hbuilt override namespace.
  assert (Hns : namespaceOf c opts = namespace /\ selector c = sel).
  { unfold namespaceOf. fold override. subst namespace.
    unfold NewLauncher in Hbuilt. destruct kube as [given|].
    - injection Hbuilt as <-. cbn [ns selector].
      destruct (decide (override = "")); [|auto].
      destruct (decide (ns0 = "")); auto.
    - destruct CreateKubeConfig as [cfg [e|]]; [discriminate|].
      destruct (NewForConfig cfg) as [built [e|]]; [discriminate|].
      destruct (decide (ns0 = "")) as [Hempty|Hgiven].
      + destruct CurrentNamespace as [current [e|]]; [discriminate|].
        injection Hbuilt as <-. cbn [ns selector fst].
        destruct (decide (override = "")); auto.
      + injection Hbuilt as <-. cbn [ns selector].
        destruct (decide (override = "")); auto. }
  destruct Hns as [Hns Hsel].
  destruct (Launch_calls c opts s) as [rest [Hcalls [Hqueries Hrest]]].
  rewrite Hcalls. cbn [queries submissions omap list_omap].
  fold (queries rest). fold (submissions rest). rewrite Hqueries.
  unfold selectorOf, safeNameOf in Hcalls |- *. rewrite Hns, Hsel.
  split; [reflexivity|].
  intros n job Hin. destruct Hrest as [->| ->]; [now apply elem_of_nil in Hin|].
  apply elem_of_submissions, startNewJob_submits in Hin as [Hn _]. congruence.
Qed.

End Construction_properties.

(** ** The statements at work on the example platform *)

(** A record of the commit is listed next to an active record of another
    commit: the cycle ends after the list query. *)
Lemma Launch_skips_recorded_commit_witness :
  @Launch demo.checkout (demo.launcherClient true) (demo.options "" demo.sha false)
    [("jx", demo.record "ffff" 0 0); ("jx", demo.record demo.sha 1 0)]
  = {| result := Return [];
       final := [("jx", demo.record "ffff" 0 0); ("jx", demo.record demo.sha 1 0)];
       calls := [demo.listQuery "jx"] |}.
Proof.
  apply (@Launch_skips_recorded_commit demo.checkout (demo.launcherClient true)
           (demo.options "" demo.sha false)
           [("jx", demo.record "ffff" 0 0); ("jx", demo.record demo.sha 1 0)]
           [demo.record "ffff" 0 0; demo.record demo.sha 1 0]).
  - reflexivity.
  - exists (demo.record demo.sha 1 0). split; [called | reflexivity].
Defined.


(** The long repository name is cut to 20 characters and the commit id to
    the 10 that are left. *)
Lemma job_name_truncation_witness :
  exists namePrefix shaPart,
    trimLength demo.safeName 20 = Some namePrefix /\
    trimLength demo.sha (30 - Z.of_nat (String.length namePrefix)) = Some shaPart /\
    String.length namePrefix = Nat.min 20 (String.length demo.safeName) /\
    String.length shaPart = Nat.min (30 - String.length namePrefix) (String.length demo.sha) /\
    v1.Name demo.submitted = namePrefix +:+ "-" +:+ shaPart /\
    (String.length (v1.Name demo.submitted) <= 31)%nat.
Proof.
  apply (proj2 (proj2 (@job_name_truncation demo.checkout (demo.launcherClient true)
                         (demo.options "" demo.sha false) "jx" demo.safeName demo.sha []))
           "jx" demo.submitted).
  vm_compute. called.
Defined.

(** An active record of another commit is listed and none of the commit:
    the cycle ends without an error and without creating anything, so the
    store neither held a record of the commit nor gains one. *)
Lemma held_or_gains_one_counterexample :
  ~ @held_or_gains_one demo.checkout (demo.launcherClient true)
      (demo.options "" demo.sha false) [("jx", demo.record "ffff" 0 0)].
Proof.
  intros Hclaim.
  destruct (Hclaim [] eq_refl) as [[[[entry [Hin Hsha]]|[old [Hin Hsha]]] _]|[job [_ Hfin]]].
  - apply list_elem_of_singleton in Hin. subst entry.
    vm_compute in Hsha. discriminate Hsha.
  - change (old ∈ [demo.record "ffff" 0 0]) in Hin.
    apply list_elem_of_singleton in Hin. subst old.
    vm_compute in Hsha. discriminate Hsha.
  - apply (f_equal length) in Hfin. discriminate Hfin.
Qed.

(** The run of that cycle. *)
Example active_record_blocks_other_commit :
  @Launch demo.checkout (demo.launcherClient true) (demo.options "" demo.sha false)
    [("jx", demo.record "ffff" 0 0)]
  = {| result := Return []; final := [("jx", demo.record "ffff" 0 0)];
       calls := [demo.listQuery "jx"] |}.
Proof. reflexivity. Qed.

(** A first cycle on an empty store creates exactly the record of the
    commit. *)
Lemma Launch_adds_at_most_one_record_witness :
  exists job,
    [demo.submitted] = [job] /\
    final (@Launch demo.checkout (demo.launcherClient true)
             (demo.options "" demo.sha false) [])
    = [] ++ [("jx", job)] /\
    index (v1.Labels job) (@CommitShaLabelKey demo.checkout) = demo.sha.
Proof.
  destruct (@Launch_adds_at_most_one_record demo.checkout (demo.launcherClient true)
              (demo.options "" demo.sha false) [] [demo.submitted] eq_refl)
    as [[Hnone _]|[job [Hjob [Hfin [_ [Hsha _]]]]]].
  - discriminate Hnone.
  - exists job. split; [exact Hjob|]. split; [exact Hfin | exact Hsha].
Defined.

(** Both Job files exist: the one under versionStream is loaded. *)
Lemma job_file_resolution_witness :
  EvLoadFile "/work/versionStream/git-operator/job.yaml"
  ∈ calls (@startNewJob demo.checkout (demo.launcherClient true)
             (demo.options "" demo.sha false) "jx" demo.safeName demo.sha [])
  /\ forall path,
       EvLoadFile path
       ∈ calls (@startNewJob demo.checkout (demo.launcherClient true)
                  (demo.options "" demo.sha false) "jx" demo.safeName demo.sha []) ->
       path = "/work/versionStream/git-operator/job.yaml".
Proof.
  pose proof (proj1 (@job_file_resolution demo.checkout (demo.launcherClient true)
                       (demo.options "" demo.sha false) "jx" demo.safeName demo.sha [])
                eq_refl) as [Honly [Hloads _]].
  split.
  - exact (Hloads eq_refl).
  - intros path Hin. apply Honly. right. exact Hin.
Defined.

(** The label of the template is kept next to the three labels of the
    launcher. *)
Lemma materialized_labels_witness :
  exists file template labels,
    EvLoadFile file
    ∈ calls (@startNewJob demo.checkout (demo.launcherClient true)
               (demo.options "" demo.sha false) "jx" demo.safeName demo.sha []) /\
    @LoadFile demo.checkout file = (template, None) /\
    v1.Labels demo.submitted = Some labels /\
    labels !! "git-operator.jenkins.io/commit-sha" = Some demo.sha /\
    labels !! "team" = default ∅ (v1.Labels template) !! "team".
Proof.
  destruct (@materialized_labels demo.checkout (demo.launcherClient true)
              (demo.options "" demo.sha false) "jx" demo.safeName demo.sha []
              "jx" demo.submitted)
    as [file [template [labels [Hcalled [Hload [Hlabels [_ [Hsha [_ [_ Hother]]]]]]]]]].
  - vm_compute. called.
  - exists file, template, labels.
    split; [exact Hcalled|]. split; [exact Hload|]. split; [exact Hlabels|].
    split; [exact Hsha|]. apply Hother; discriminate.
Defined.

(** With resource-apply disabled no command is run although the resources
    directory exists; with it enabled and a failing runner, kubectl apply is
    run and the cycle ends with its error, nothing created. *)
Lemma resource_apply_gating_witness :
  commands (calls (@Launch demo.checkout (demo.launcherClient false)
                     (demo.options "" demo.sha true) [])) = []
  /\ (exists absDir,
        demo.applyResources
        = {| cmdrunner.Name := "kubectl"; cmdrunner.Args := ["apply"; "-f"; absDir] |}
        /\ result (@Launch demo.checkout (demo.launcherClient false)
                     (demo.options "" demo.sha false) [])
           = Failure (Wrapf (External false "exit status 1")
                        ("failed to apply resources in dir " +:+ absDir))
        /\ final (@Launch demo.checkout (demo.launcherClient false)
                    (demo.options "" demo.sha false) []) = []
        /\ submissions (calls (@Launch demo.checkout (demo.launcherClient false)
                                 (demo.options "" demo.sha false) [])) = [])
  /\ commands (calls (@startNewJob demo.checkout (demo.launcherClient false)
                        (demo.options "" demo.sha false) "jx" demo.safeName demo.sha []))
     = [demo.applyResources].
Proof.
  split; [|split].
  - exact (proj1 (@resource_apply_gating demo.checkout (demo.launcherClient false)
                    (demo.options "" demo.sha true) []) eq_refl).
  - apply (proj1 (proj2 (@resource_apply_gating demo.checkout (demo.launcherClient false)
                           (demo.options "" demo.sha false) []))
             demo.applyResources "" (External false "exit status 1")).
    + vm_compute. called.
    + reflexivity.
  - exact (proj2 (proj2 (@resource_apply_gating demo.checkout (demo.launcherClient false)
                           (demo.options "" demo.sha false) []))
             "jx" demo.safeName demo.sha true demo.template
             "/work/versionStream/git-operator/resources"
             eq_refl eq_refl eq_refl eq_refl eq_refl eq_refl).
Defined.


(** A checkout without a Job file. *)
Lemma missing_job_file_is_reported_apart_witness :
  @startNewJob demo.bare (demo.launcherClient true) (demo.options "" demo.sha false)
    "jx" demo.safeName demo.sha []
  = {| result :=
         Failure (Errorf ("repository a-very-long-repository-name-example"
                          +:+ " does not have a Job file: /work/.jx/git-operator/job.yaml"));
       final := [];
       calls := [EvDirExists "/work/versionStream/git-operator";
                 EvFileExists "/work/.jx/git-operator/job.yaml"] |}.
Proof.
  exact (proj1 (@missing_job_file_is_reported_apart demo.bare (demo.launcherClient true)
                  (demo.options "" demo.sha false) "jx" demo.safeName demo.sha [])
           false eq_refl eq_refl).
Defined.

(** Without an override the launcher's namespace is used, with one the
    override. *)
Lemma Launch_namespace_witness :
  (exists sel,
     queries (calls (@Launch demo.checkout (demo.launcherClient true)
                       (demo.options "" demo.sha false) [])) = [("jx", sel)])
  /\ (forall n job,
        (n, job) ∈ submissions (calls (@Launch demo.checkout (demo.launcherClient true)
                                         (demo.options "staging" demo.sha false) [])) ->
        n = "staging").
Proof.
  split.
  - exact (proj1 (proj1 (@Launch_namespace demo.checkout (demo.launcherClient true)
                           (demo.options "" demo.sha false) []) eq_refl)).
  - assert (Hoverride : repo.Namespace (launcher.Repository
                          (demo.options "staging" demo.sha false)) <> "")
      by discriminate.
    exact (proj1 (proj2 (proj2 (@Launch_namespace demo.checkout (demo.launcherClient true)
                                  (demo.options "staging" demo.sha false) []) Hoverride))).
Defined.

(** ** The further statements at work on the example platform *)

(** Cutting the commit id to 10 characters, then again to 10 or to 30. *)
Lemma trimLength_idempotent_witness :
  trimLength "0123456789" 30 = Some "0123456789".
Proof.
  apply (trimLength_idempotent demo.sha "0123456789" 10 30).
  - reflexivity.
  - lia.
Defined.

(** Repository "boot" and commit "abc123" name the record boot-abc123. *)
Lemma short_names_are_kept_witness :
  v1.Name demo.shortSubmitted = "boot" +:+ "-" +:+ "abc123".
Proof.
  apply (@short_names_are_kept demo.checkout (demo.launcherClient true) demo.shortOptions
           "jx" "boot" "abc123" [] "jx" demo.shortSubmitted).
  - vm_compute. lia.
  - vm_compute. lia.
  - vm_compute. called.
Defined.

Lemma name_keeps_ten_of_commit_witness :
  exists namePrefix shaPart rest,
    v1.Name demo.submitted = namePrefix +:+ "-" +:+ shaPart /\
    demo.sha = shaPart +:+ rest /\
    (Nat.min 10 (String.length demo.sha) <= String.length shaPart)%nat /\
    (String.length namePrefix <= 20)%nat.
Proof.
  apply (@name_keeps_ten_of_commit demo.checkout (demo.launcherClient true)
           (demo.options "" demo.sha false) "jx" demo.safeName demo.sha [] "jx"
           demo.submitted).
  vm_compute. called.
Defined.


(** An active record of the commit itself, listed alone. *)
Lemma Launch_active_record_blocks_witness :
  @Launch demo.checkout (demo.launcherClient true) (demo.options "" demo.sha false)
    [("jx", demo.record "ffff" 0 0)]
  = {| result := Return []; final := [("jx", demo.record "ffff" 0 0)];
       calls := [demo.listQuery "jx"] |}.
Proof.
  exact (@Launch_active_record_blocks demo.checkout (demo.launcherClient true)
           (demo.options "" demo.sha false) [("jx", demo.record "ffff" 0 0)]
           [demo.record "ffff" 0 0] (demo.record "ffff" 0 0)
           eq_refl (list_elem_of_here _ _) eq_refl eq_refl).
Defined.

(** The first cycle on the empty store creates the record; the second finds
    it listed and creates nothing. *)
Lemma Launch_again_skips_witness :
  @Launch demo.checkout (demo.launcherClient true) (demo.options "" demo.sha false)
    (final (@Launch demo.checkout (demo.launcherClient true)
              (demo.options "" demo.sha false) []))
  = {| result := Return [];
       final := final (@Launch demo.checkout (demo.launcherClient true)
                         (demo.options "" demo.sha false) []);
       calls := [demo.listQuery "jx"] |}.
Proof.
  apply (@Launch_again_skips demo.checkout (demo.launcherClient true)
           (demo.options "" demo.sha false) [] demo.submitted [demo.submitted]).
  - reflexivity.
  - reflexivity.
  - exists demo.submitted. split; [called | reflexivity].
Defined.

(** A completed record without labels does not stand in the way of commit
    0123456789abcdef, and does stand for the empty commit id. *)
Lemma Launch_unlabelled_records_witness :
  @Launch demo.checkout (demo.launcherClient true) (demo.options "" demo.sha false)
    [("jx", demo.unlabelled 1 0)]
  = after (demo.listQuery "jx")
      (@startNewJob demo.checkout (demo.launcherClient true)
         (demo.options "" demo.sha false) "jx" demo.safeName demo.sha
         [("jx", demo.unlabelled 1 0)])
  /\ @Launch demo.checkout (demo.launcherClient true) (demo.options "" "" false)
       [("jx", demo.unlabelled 1 0)]
     = {| result := Return []; final := [("jx", demo.unlabelled 1 0)];
          calls := [demo.listQuery "jx"] |}.
Proof.
  assert (Hold : forall old : v1.Job, old ∈ [demo.unlabelled 1 0] ->
            (v1.Labels old = None \/
             exists labels, v1.Labels old = Some labels
                            /\ labels !! @CommitShaLabelKey demo.checkout = None)
            /\ IsJobActive old = false).
  { intros old Hin. apply list_elem_of_singleton in Hin. subst old.
    split; [left|]; reflexivity. }
  split.
  - apply (proj2 (@Launch_unlabelled_records demo.checkout (demo.launcherClient true)
                    (demo.options "" demo.sha false) [("jx", demo.unlabelled 1 0)]
                    [demo.unlabelled 1 0] (demo.unlabelled 1 0)
                    eq_refl (list_elem_of_here _ _) Hold)).
    discriminate.
  - apply (proj1 (@Launch_unlabelled_records demo.checkout (demo.launcherClient true)
                    (demo.options "" "" false) [("jx", demo.unlabelled 1 0)]
                    [demo.unlabelled 1 0] (demo.unlabelled 1 0)
                    eq_refl (list_elem_of_here _ _) Hold)).
    reflexivity.
Defined.

(** A cycle on a checkout without a Job file fails and leaves the store. *)
Lemma Launch_failure_keeps_store_witness :
  final (@Launch demo.bare (demo.launcherClient true) (demo.options "" demo.sha false)
           [("jx", demo.record "ffff" 1 0)])
  = [("jx", demo.record "ffff" 1 0)].
Proof.
  exact (@Launch_failure_keeps_store demo.bare (demo.launcherClient true)
           (demo.options "" demo.sha false) [("jx", demo.record "ffff" 1 0)]
           (Errorf ("repository a-very-long-repository-name-example"
                    +:+ " does not have a Job file: /work/.jx/git-operator/job.yaml"))
           eq_refl).
Defined.

Lemma Launch_submits_last_witness :
  last (calls (@Launch demo.checkout (demo.launcherClient true)
                 (demo.options "" demo.sha false) []))
  = Some (EvCreate "jx" demo.submitted).
Proof.
  apply (proj1 (@Launch_submits_last demo.checkout (demo.launcherClient true)
                  (demo.options "" demo.sha false) [] "jx" demo.submitted)).
  vm_compute. called.
Defined.

(** The cycle for demo.sha creates the same record with resource-apply
    disabled, and runs no command. *)
Lemma Launch_without_apply_witness :
  result (@Launch demo.checkout (demo.launcherClient true)
            (demo.options "" demo.sha true) []) = Return [demo.submitted]
  /\ final (@Launch demo.checkout (demo.launcherClient true)
              (demo.options "" demo.sha true) [])
     = final (@Launch demo.checkout (demo.launcherClient true)
                (demo.options "" demo.sha false) [])
  /\ commands (calls (@Launch demo.checkout (demo.launcherClient true)
                        (demo.options "" demo.sha true) [])) = [].
Proof.
  exact (@Launch_without_apply demo.checkout (demo.launcherClient true)
           (demo.options "" demo.sha false) (demo.options "" demo.sha true) []
           [demo.submitted] eq_refl eq_refl eq_refl eq_refl eq_refl).
Defined.

(** Inside the cluster, without a client, a namespace or a runner given:
    the launcher works in the current namespace. *)
Lemma NewLauncher_builds_witness :
  exists c,
    @NewLauncher demo.inCluster None "" "app=x" None = Return c
    /\ selector c = "app=x"
    /\ @CurrentNamespace demo.inCluster = (ns c, None).
Proof.
  eexists. split; [reflexivity|].
  destruct (@NewLauncher_builds demo.inCluster None "" "app=x" None _ eq_refl)
    as [Hsel [_ [_ [_ [_ Hns]]]]].
  split; [exact Hsel | exact (Hns eq_refl)].
Defined.

(** Without access to a cluster and without a client given. *)
Lemma NewLauncher_fails_witness :
  @NewLauncher demo.noCluster None "" "app=x" None
  = Failure (Wrapf (External false "no kubeconfig") "failed to create kube config")
  /\ exists e,
       snd (@CreateKubeConfig demo.noCluster) = Some e
       /\ Wrapf (External false "no kubeconfig") "failed to create kube config"
          = Wrapf e "failed to create kube config".
Proof.
  split; [reflexivity|].
  destruct (proj2 (@NewLauncher_fails demo.noCluster None "" "app=x" None)
              (Wrapf (External false "no kubeconfig") "failed to create kube config")
              eq_refl)
    as [_ [[e [Hcfg He]]|[[e [Hcfg _]]|[e [Hcfg _]]]]].
  - exists e. split; [exact Hcfg | exact He].
  - discriminate Hcfg.
  - discriminate Hcfg.
Defined.

(** Built inside the cluster without a namespace, the launcher lists in the
    current namespace; built around a given client without a namespace, it
    lists in the empty namespace. *)
Lemma NewLauncher_then_Launch_namespace_witness :
  queries (calls (@Launch demo.checkout
                    {| kubeClient := demo.kube; ns := "operators"; selector := "app=x";
                       runner := @DefaultCommandRunner demo.inCluster |}
                    demo.shortOptions []))
  = [("operators", "app=x,git-operator.jenkins.io/repository=boot")]
  /\ queries (calls (@Launch demo.checkout
                       {| kubeClient := demo.kube; ns := ""; selector := "app=x";
                          runner := @DefaultCommandRunner demo.inCluster |}
                       demo.shortOptions []))
     = [("", "app=x,git-operator.jenkins.io/repository=boot")].
Proof.
  split.
  - exact (proj1 (@NewLauncher_then_Launch_namespace demo.checkout demo.inCluster
                    None "" "app=x" None _ demo.shortOptions [] eq_refl)).
  - exact (proj1 (@NewLauncher_then_Launch_namespace demo.checkout demo.inCluster
                    (Some demo.kube) "" "app=x" None _ demo.shortOptions [] eq_refl)).
Defined.

(** A Job file that the loader rejects. *)
Lemma unloadable_job_file_stops_run_witness :
  @startNewJob demo.broken (demo.launcherClient true) demo.shortOptions
    "jx" "boot" "abc123" []
  = {| result :=
         Failure (Wrapf (External false "did not find expected key")
                    ("failed to load Job file /work/.jx/git-operator/job.yaml"
                     +:+ " in repository boot"));
       final := [];
       calls := [EvDirExists "/work/versionStream/git-operator";
                 EvFileExists "/work/.jx/git-operator/job.yaml";
                 EvLoadFile "/work/.jx/git-operator/job.yaml"] |}.
Proof.
  exact (@unloadable_job_file_stops_run demo.broken (demo.launcherClient true)
           demo.shortOptions "jx" "boot" "abc123" [] false demo.emptyJob
           (External false "did not find expected key") eq_refl eq_refl eq_refl).
Defined.

(** A checkout with a Job file and no resources directory. *)
Lemma missing_resources_directory_is_skipped_witness :
  commands (calls (@startNewJob demo.plain (demo.launcherClient false)
                     (demo.options "" demo.sha false) "jx" demo.safeName demo.sha []))
  = [].
Proof.
  exact (proj1 (@missing_resources_directory_is_skipped demo.plain
                  (demo.launcherClient false) (demo.options "" demo.sha false)
                  "jx" demo.safeName demo.sha [] false demo.template
                  eq_refl eq_refl eq_refl eq_refl eq_refl)).
Defined.
